(** * Qlik Sense Data Retention Controller: a shallow embedding of [main.py]

    The development follows the source file top-down:

    - [Py]         the fragment of Python the program relies on: JSON values
                   as produced by [json.loads], exceptions, subscripting,
                   truthiness, [==] against a boolean or a string, true
                   division, [round(x, ndigits)] and naive [datetime]
                   arithmetic.  Floats are IEEE 754 binary64 numbers, taken
                   from [SpecFloat].
    - [Evaluator]  [stale_apps], the retention filter, in the exception
                   monad [result].
    - [Net]        the websocket the program talks to: a trace of I/O events,
                   a server that answers as a function of the trace, and the
                   state-and-exception monad [io] over them.
    - [Driver]     [_connect], [_communicate], [get_app_list],
                   [drop_data_from_app] and the truncation loop of the main
                   block.
    - [Sample]     concrete documents, a timestamp parser and servers, on
                   which the statements are exercised.

    The theorems come after the definitions, grouped by component. *)

From Stdlib Require Import ZArith Lia Ascii String.
From Stdlib Require Import Floats.SpecFloat.
From stdpp Require Import base option list strings gmap.

#[local] Open Scope Z_scope.

(* ===================================================================== *)
(** * Python values, exceptions and built-ins                             *)
(* ===================================================================== *)

Module Py.

(** What [json.loads] can return.  A JSON object is a Python [dict] keyed by
    strings; only lookups are ever performed on it. *)
#[warnings="-register-all"] Inductive pyval : Type :=
| PNone
| PBool (b : bool)
| PInt (z : Z)
| PFloat (f : spec_float)
| PStr (s : string)
| PList (l : list pyval)
| PDict (d : gmap string pyval).

(** The exceptions that the modelled code paths can raise. *)
Inductive exn : Type :=
| KeyError
| TypeError
| ValueError
| AttributeError
| OverflowError
| ZeroDivisionError
| JSONDecodeError
| WebSocketException.

(** A computation either returns or raises. *)
Inductive result (A : Type) : Type :=
| Ok (a : A)
| Raise (e : exn).
Arguments Ok {A} a.
Arguments Raise {A} e.

Definition bind {A B} (r : result A) (k : A -> result B) : result B :=
  match r with
  | Ok a => k a
  | Raise e => Raise e
  end.

#[global] Instance result_ret : MRet result := fun A a => Ok a.
#[global] Instance result_bind : MBind result := fun A B k r => bind r k.

Definition is_ok {A} (r : result A) : bool :=
  match r with Ok _ => true | Raise _ => false end.

(** ** Containers *)

(** [v[k]] for a string key [k]. *)
Definition getitem (v : pyval) (k : string) : result pyval :=
  match v with
  | PDict d => match d !! k with
               | Some x => Ok x
               | None => Raise KeyError
               end
  | _ => Raise TypeError
  end.

(** [v.get(k, None)]. *)
Definition dict_get (v : pyval) (k : string) : result pyval :=
  match v with
  | PDict d => Ok (default PNone (d !! k))
  | _ => Raise AttributeError
  end.

(** A [dict] display [{k1: v1, ...}]; later keys win. *)
Definition dict_of (kvs : list (string * pyval)) : gmap string pyval :=
  foldl (fun d kv => <[kv.1 := kv.2]> d) ∅ kvs.

Definition mkdict (kvs : list (string * pyval)) : pyval :=
  PDict (dict_of kvs).

(** ** Floats: binary64 *)

Definition prec : Z := 53.
Definition emax : Z := 1024.
Abbreviation float := spec_float.

Definition fdiv : float -> float -> float := SFdiv prec emax.
Definition fltb : float -> float -> bool := SFltb.
Definition fleb : float -> float -> bool := SFleb.
Definition feqb : float -> float -> bool := SFeqb.

Definition is_finite (f : float) : bool :=
  match f with S754_zero _ | S754_finite _ _ _ => true | _ => false end.

Definition fzero (f : float) : bool :=
  match f with S754_zero _ => true | _ => false end.

(** The correctly rounded quotient [n / d] of two integers, [d > 0]: the
    division is carried out on the integers themselves, so that the result
    is rounded once. *)
Definition ratio_to_float (n : Z) (d : positive) : float :=
  match n with
  | Z0 => S754_zero false
  | Zpos p => fdiv (S754_finite false p 0) (S754_finite false d 0)
  | Zneg p => fdiv (S754_finite true p 0) (S754_finite false d 0)
  end.

(** [float(z)]: round to nearest, ties to even; too large an integer
    raises. *)
Definition float_of_int (z : Z) : result float :=
  let f := binary_normalize prec emax z 0 false in
  if is_finite f then Ok f else Raise OverflowError.

(** [a / b] on two integers ([long_true_divide]): the correctly rounded
    quotient. *)
Definition int_truediv (a b : Z) : result float :=
  match b with
  | Z0 => Raise ZeroDivisionError
  | Zpos q =>
      let f := match a with
               | Z0 => S754_zero false
               | _ => ratio_to_float a q
               end in
      if is_finite f then Ok f else Raise OverflowError
  | Zneg q =>
      let f := match a with
               | Z0 => S754_zero true
               | _ => ratio_to_float (- a) q
               end in
      if is_finite f then Ok f else Raise OverflowError
  end.

(** [a / b] on two floats. *)
Definition float_truediv (a b : float) : result float :=
  if fzero b then Raise ZeroDivisionError else Ok (fdiv a b).

(** [a / b] where [a] is any value and [b] an [int] literal. *)
Definition truediv (a : pyval) (b : Z) : result pyval :=
  match a with
  | PInt z => bind (int_truediv z b) (fun f => Ok (PFloat f))
  | PBool c => bind (int_truediv (Z.b2z c) b) (fun f => Ok (PFloat f))
  | PFloat x => bind (float_of_int b) (fun y =>
                bind (float_truediv x y) (fun f => Ok (PFloat f)))
  | _ => Raise TypeError
  end.

(** Round a rational [n / d] to the nearest integer, ties to even. *)
Definition round_half_even (n : Z) (d : positive) : Z :=
  let q := n / Zpos d in
  let r := n mod Zpos d in
  match 2 * r ?= Zpos d with
  | Lt => q
  | Gt => q + 1
  | Eq => if Z.even q then q else q + 1
  end.

(** [round(x, ndigits)] on a float, [ndigits >= 0] ([float.__round__] with
    [double_round]): the exact value of [x] is rounded to [ndigits] decimal
    places, ties to even, and the decimal result converted back to the
    nearest float.  Infinities and NaN round to themselves. *)
Definition round_float (x : float) (ndigits : N) : result float :=
  match x with
  | S754_finite s m e =>
      let p10 := match ndigits with N0 => 1%positive | Npos n => Pos.pow 10 n end in
      let k := match e with
               | Zneg sh => round_half_even (Zpos (m * p10)) (Pos.pow 2 sh)
               | _ => Zpos (m * p10) * 2 ^ e
               end in
      let f := match k with
               | Z0 => S754_zero s
               | Zpos kp => fdiv (S754_finite s kp 0) (S754_finite false p10 0)
               | Zneg _ => S754_nan
               end in
      if is_finite f then Ok f else Raise OverflowError
  | _ => Ok x
  end.

(** [round(v, ndigits)] for the values that [truediv] produces. *)
Definition round (v : pyval) (ndigits : N) : result float :=
  match v with
  | PFloat x => round_float x ndigits
  | _ => Raise TypeError
  end.

(** ** Truthiness and equality *)

(** [bool(v)], as used by [if v:]. *)
Definition truthy (v : pyval) : bool :=
  match v with
  | PNone => false
  | PBool b => b
  | PInt z => negb (z =? 0)
  | PFloat f => negb (fzero f)
  | PStr s => negb (String.eqb s "")
  | PList l => match l with [] => false | _ => true end
  | PDict d => negb (bool_decide (d = ∅))
  end.

(** [v == b] where [b] is a [bool]: booleans are the integers 0 and 1 and
    compare numerically; no other type equals a boolean. *)
Definition eq_bool (v : pyval) (b : bool) : bool :=
  match v with
  | PBool c => Bool.eqb c b
  | PInt z => z =? Z.b2z b
  | PFloat f => feqb f (if b then S754_finite false 4503599627370496 (-52)
                        else S754_zero false)
  | _ => false
  end.

(** [v == s] where [s] is a [str]. *)
Definition eq_str (v : pyval) (s : string) : bool :=
  match v with
  | PStr t => String.eqb t s
  | _ => false
  end.

(** [v in (a, b)] where [a] and [b] are booleans: identity or equality with
    one of the members; for a boolean member identity implies equality. *)
Definition in_bools (v : pyval) (a b : bool) : bool :=
  eq_bool v a || eq_bool v b.

(** ** Naive datetimes

    A naive [datetime] is represented by the number of microseconds since
    [datetime.min] = 0001-01-01 00:00:00; [datetime.max] is
    9999-12-31 23:59:59.999999. *)

Definition datetime : Type := Z.

Definition us_per_day : Z := 86400 * 1000000.
Definition datetime_max : datetime := 3652059 * us_per_day - 1.

(** The naive datetime of 1970-01-01 00:00:00 (ordinal day 719163). *)
Definition unix_epoch : datetime := 719162 * us_per_day.

Definition datetime_ok (t : datetime) : Prop := 0 <= t <= datetime_max.

(** [timedelta(days=d)], in microseconds. *)
Definition timedelta_days (d : Z) : result Z :=
  if (Z.abs d <=? 999999999) then Ok (d * us_per_day) else Raise OverflowError.

(** [t - delta]. *)
Definition datetime_sub (t : datetime) (delta : Z) : result datetime :=
  let r := t - delta in
  if (0 <=? r) && (r <=? datetime_max) then Ok r else Raise OverflowError.

End Py.

Import Py.


(* ===================================================================== *)
(** * The retention evaluator                                             *)
(* ===================================================================== *)

(** One entry of the list that [stale_apps] builds: the dictionary with the
    keys ['name'], ['id'], ['size_mb'] and ['last_reload']. *)
Record stale_app : Type := StaleApp {
  app_name : pyval;
  app_id : pyval;
  size_mb : float;
  last_reload : datetime
}.

Section Evaluator.

(** [dt.strptime(s, '%Y-%m-%dT%H:%M:%S.%fZ')] on a string: the parsed naive
    datetime, or [None] when the string does not match the format
    ([ValueError]).  The parser belongs to the Python library. *)
Variable strptime : string -> option datetime.

(** [dt.fromtimestamp(0)]: the Unix epoch as a naive datetime in the local
    time zone of the machine. *)
Variable local_epoch : datetime.

(** [dt.strptime(v, fmt)] on an arbitrary value. *)
Definition dt_strptime (v : pyval) : result datetime :=
  match v with
  | PStr s => match strptime s with
              | Some t => Ok t
              | None => Raise ValueError
              end
  | _ => Raise TypeError
  end.

(** [reload_time] of a document (lines 76-80). *)
Definition reload_time_of (doc : pyval) : result datetime :=
  qLastReloadTime ← dict_get doc "qLastReloadTime";
  if truthy qLastReloadTime
  then dt_strptime qLastReloadTime
  else Ok local_epoch.

(** [round(doc['qFileSize'] / 1024 / 1024, 2)] (lines 86 and 94). *)
Definition size_of (doc : pyval) : result float :=
  qFileSize ← getitem doc "qFileSize";
  kb ← truediv qFileSize 1024;
  mb ← truediv kb 1024;
  round mb 2.

(** The body of the [for] loop (lines 72-96): [apps] is the list built so
    far, the result is the list after this iteration. *)
Definition stale_apps_body (threshold : datetime) (min_mb : float)
    (include_published : bool) (apps : list stale_app) (doc : pyval)
  : result (list stale_app) :=
  qMeta ← getitem doc "qMeta";
  published ← getitem qMeta "published";
  if in_bools published false include_published then
    reload_time ← reload_time_of doc;
    if reload_time <? threshold then
      size ← size_of doc;
      if fltb min_mb size then
        name ← getitem doc "qDocName";
        id ← getitem doc "qDocId";
        size_mb ← size_of doc;
        Ok (apps ++ [StaleApp name id size_mb reload_time])
      else Ok apps
    else Ok apps
  else Ok apps.

(** The [for] loop over [app_list]. *)
Fixpoint stale_apps_loop (threshold : datetime) (min_mb : float)
    (include_published : bool) (app_list : list pyval) (apps : list stale_app)
  : result (list stale_app) :=
  match app_list with
  | [] => Ok apps
  | doc :: rest =>
      apps' ← stale_apps_body threshold min_mb include_published apps doc;
      stale_apps_loop threshold min_mb include_published rest apps'
  end.

(** [stale_apps(app_list, days_stale, min_mb, include_published)], with the
    value [now] that [dt.utcnow()] returns made explicit.  [days_stale] is
    an [int] and [min_mb] a [float], as the argument parser produces them;
    the default [min_mb=1] compares like [1.0]. *)
Definition stale_apps (now : datetime) (app_list : list pyval)
    (days_stale : Z) (min_mb : float) (include_published : bool)
  : result (list stale_app) :=
  delta ← timedelta_days days_stale;
  threshold ← datetime_sub now delta;
  stale_apps_loop threshold min_mb include_published app_list [].

End Evaluator.

(* ===================================================================== *)
(** * The websocket                                                       *)
(* ===================================================================== *)

Module Net.

(** A connection is named by the position of its [Connect] event. *)
Definition conn : Type := nat.

(** What the program does to the outside world, in order.  A text frame is
    represented by its JSON decoding: [Some v] when the frame is the
    serialization of [v], [None] when it is not JSON at all. *)
Inductive event : Type :=
| Connect (hostname : string) (ok : bool)
| Send (c : conn) (message : pyval) (ok : bool)
| Recv (c : conn) (frame : option (option pyval))
| Close (c : conn)
| Print (line : pyval).

Definition trace : Type := list event.

(** The other end of the wire: how the next operation fares, given all that
    happened so far.
    - [accept tr host]: does [create_connection] to [host] succeed;
    - [deliver tr]: does [ws.send] succeed;
    - [respond tr]: the frame that [ws.recv] returns, [None] when it raises. *)
Record server : Type := Server {
  accept : trace -> string -> bool;
  deliver : trace -> bool;
  respond : trace -> option (option pyval)
}.

(** Computations that perform I/O: they extend the trace and return or
    raise. *)
Definition io (A : Type) : Type := trace -> result A * trace.

#[global] Instance io_ret : MRet io := fun A a tr => (Ok a, tr).
#[global] Instance io_bind : MBind io := fun A B k m tr =>
  match m tr with
  | (Ok a, tr') => k a tr'
  | (Raise e, tr') => (Raise e, tr')
  end.

Definition lift {A} (r : result A) : io A := fun tr => (r, tr).

(** The connections that were opened and those that were closed. *)
Fixpoint opened_from (n : nat) (tr : trace) : list conn :=
  match tr with
  | [] => []
  | Connect _ true :: tr' => n :: opened_from (S n) tr'
  | _ :: tr' => opened_from (S n) tr'
  end.

Definition opened (tr : trace) : list conn := opened_from 0 tr.

Fixpoint closed (tr : trace) : list conn :=
  match tr with
  | [] => []
  | Close c :: tr' => c :: closed tr'
  | _ :: tr' => closed tr'
  end.

(** The connections left open at the end of [tr]. *)
Definition leaked (tr : trace) : list conn :=
  filter (fun c => c ∉ closed tr) (opened tr).

(** The messages handed to [ws.send], in order. *)
Fixpoint sent (tr : trace) : list pyval :=
  match tr with
  | [] => []
  | Send _ m _ :: tr' => m :: sent tr'
  | _ :: tr' => sent tr'
  end.

(** The lines handed to [print], in order. *)
Fixpoint printed (tr : trace) : list pyval :=
  match tr with
  | [] => []
  | Print l :: tr' => l :: printed tr'
  | _ :: tr' => printed tr'
  end.

(** The hosts handed to [create_connection], in order, whether the
    connection came up or not. *)
Fixpoint dialled (tr : trace) : list string :=
  match tr with
  | [] => []
  | Connect h _ :: tr' => h :: dialled tr'
  | _ :: tr' => dialled tr'
  end.

Section Ops.

Variable srv : server.

(** [create_connection(url=..., header=..., sslopt=...)]. *)
Definition create_connection (hostname : string) : io conn :=
  fun tr =>
    if accept srv tr hostname
    then (Ok (length tr), tr ++ [Connect hostname true])
    else (Raise WebSocketException, tr ++ [Connect hostname false]).

(** [ws.recv()]. *)
Definition ws_recv (ws : conn) : io (option pyval) :=
  fun tr =>
    match respond srv tr with
    | Some frame => (Ok frame, tr ++ [Recv ws (Some frame)])
    | None => (Raise WebSocketException, tr ++ [Recv ws None])
    end.

(** [ws.send(json.dumps(message))]. *)
Definition ws_send (ws : conn) (message : pyval) : io unit :=
  fun tr =>
    if deliver srv tr
    then (Ok tt, tr ++ [Send ws message true])
    else (Raise WebSocketException, tr ++ [Send ws message false]).

(** [ws.close()]. *)
Definition ws_close (ws : conn) : io unit :=
  fun tr => (Ok tt, tr ++ [Close ws]).

(** [print(line)]. *)
Definition print (line : pyval) : io unit :=
  fun tr => (Ok tt, tr ++ [Print line]).

(** [json.loads(frame)]. *)
Definition json_loads (frame : option pyval) : result pyval :=
  match frame with
  | Some v => Ok v
  | None => Raise JSONDecodeError
  end.

End Ops.

End Net.

Import Net.

(* ===================================================================== *)
(** * The RPC client and the reclamation driver                           *)
(* ===================================================================== *)

Section Driver.

Variable srv : server.

(** [_connect(hostname)] (lines 26-40). *)
Definition _connect (hostname : string) : io conn :=
  ws ← create_connection srv hostname;
  (* consume connection info *)
  _ ← ws_recv srv ws;
  mret ws.

(** [_communicate(ws, message)] (lines 43-46). *)
Definition _communicate (ws : conn) (message : pyval) : io pyval :=
  _ ← ws_send srv ws message;
  frame ← ws_recv srv ws;
  lift (json_loads frame).

(** The message of [get_app_list]. *)
Definition GetDocList_msg : pyval :=
  mkdict [("method", PStr "GetDocList"); ("handle", PInt (-1)); ("params", PList [])].

(** [get_app_list(host)] (lines 49-62). *)
Definition get_app_list (host : string) : io pyval :=
  websocket ← _connect host;
  response ← _communicate websocket GetDocList_msg;
  _ ← ws_close websocket;
  result ← lift (getitem response "result");
  lift (getitem result "qDocList").

(** The first message of [drop_data_from_app] (lines 107-114). *)
Definition OpenDoc_msg (doc_id : pyval) : pyval :=
  mkdict [("handle", PInt (-1));
          ("method", PStr "OpenDoc");
          ("params", mkdict [("qDocName", doc_id); ("qNoData", PBool true)])].

(** Its second message (lines 120-126). *)
Definition DoSave_msg (handle : pyval) : pyval :=
  mkdict [("handle", handle);
          ("method", PStr "DoSave");
          ("params", mkdict [("qFileName", PStr "")])].

(** [response['result']['qReturn'][key]]. *)
Definition qReturn (response : pyval) (key : string) : result pyval :=
  result ← getitem response "result";
  qRet ← getitem result "qReturn";
  getitem qRet key.

(** [drop_data_from_app(host, doc_id)] (lines 101-134). *)
Definition drop_data_from_app (host : string) (doc_id : pyval) : io pyval :=
  websocket ← _connect host;
  (* open document without data *)
  response ← _communicate websocket (OpenDoc_msg doc_id);
  qType ← lift (qReturn response "qType");
  (* save document *)
  response ← (if eq_str qType "Doc" then
                qHandle ← lift (qReturn response "qHandle");
                (* consume status from save *)
                _communicate websocket (DoSave_msg qHandle)
              else mret response);
  (* close the socket *)
  _ ← ws_close websocket;
  mret response.

(** The line printed before each truncation (line 237); an f-string is
    represented by the list of its literal and interpolated parts. *)
Definition progress_line (_id : pyval) (i total : nat) : pyval :=
  PList [PStr "Truncating data from app: "; _id; PStr ". ";
         PInt (Z.of_nat i); PStr "/"; PInt (Z.of_nat total); PStr "."].

(** The loop [for i, _id in enumerate(doc_ids)] (lines 235-238); [i] is the
    index of the head of [doc_ids]. *)
Fixpoint truncate_loop (host : string) (total : nat) (i : nat) (doc_ids : list pyval)
  : io unit :=
  match doc_ids with
  | [] => mret tt
  | _id :: rest =>
      _ ← print (progress_line _id i total);
      _ ← drop_data_from_app host _id;
      truncate_loop host total (S i) rest
  end.

(** The truncation branch of the main block (lines 233-240). *)
Definition truncate (host : string) (stale_applications : list stale_app) : io unit :=
  let doc_ids := map app_id stale_applications in
  _ ← truncate_loop host (length doc_ids) 0 doc_ids;
  print (PStr "Done!").

End Driver.

(* ===================================================================== *)
(** * The main block                                                      *)
(* ===================================================================== *)

(** The parsed command line (lines 170-205). *)
Record arguments : Type := Args {
  args_host : string;
  args_days : Z;
  args_min : float;
  args_include_published : bool;
  args_report : bool;
  args_truncate : bool
}.

(** How the script ends: [sys.exit(code)], or the end of the file. *)
Inductive ending : Type :=
| Exit (code : Z)
| EndOfScript.

(** [for doc in v]: the elements of a list, the keys of a dictionary, the
    characters of a string; nothing else that [json.loads] returns can be
    iterated. *)
Definition iterate (v : pyval) : result (list pyval) :=
  match v with
  | PList l => Ok l
  | PDict d => Ok (map (fun kv => PStr kv.1) (map_to_list d))
  | PStr s => Ok (map (fun c => PStr (String c EmptyString))
                    (String.list_ascii_of_string s))
  | _ => Raise TypeError
  end.

Section Main.

Variable srv : server.
Variable strptime : string -> option datetime.
Variable local_epoch : datetime.

(** [sum(l)] on a non-empty list of floats: the additions are those of the
    interpreter, whose summation strategy depends on its version. *)
Variable fsum : list float -> float.

(** [write_stale_apps_to_csv(apps)] (lines 137-156): it writes a file named
    after the local time through the [csv] library. *)
Variable write_stale_apps_to_csv : list stale_app -> io unit.

(** [stale_apps] on whatever the inventory returned: the threshold is
    computed before the loop starts to iterate. *)
Definition stale_apps_on (now : datetime) (app_list : pyval)
    (days_stale : Z) (min_mb : float) (include_published : bool)
  : result (list stale_app) :=
  delta ← timedelta_days days_stale;
  threshold ← datetime_sub now delta;
  docs ← iterate app_list;
  stale_apps_loop strptime local_epoch threshold min_mb include_published docs [].

(** [round(sum([i['size_mb'] for i in stale_applications]), 1)] (line 218):
    the sum of an empty list is the integer 0. *)
Definition tot_size (stale_applications : list stale_app) : result pyval :=
  match stale_applications with
  | [] => Ok (PInt 0)
  | _ => total ← round_float (fsum (map size_mb stale_applications)) 1;
         Ok (PFloat total)
  end.

(** Lines 207-240, with the value [now] of [dt.utcnow()]. *)
Definition main (now : datetime) (args : arguments) : io ending :=
  let servername := args_host args in
  (* call server for complete app list *)
  applications ← get_app_list srv servername;
  (* parse list and filter for stale applications *)
  _ ← print (PList [PStr "Searching for apps that are more than ";
                    PInt (args_days args); PStr " days old."]);
  stale_applications ← lift (stale_apps_on now applications (args_days args)
                               (args_min args) (args_include_published args));
  tot_size ← lift (tot_size stale_applications);
  _ ← print (PList [PStr "Found ";
                    PInt (Z.of_nat (length stale_applications));
                    PStr " applications with a total of "; tot_size;
                    PStr " MB's of data."]);
  _ ← print (PStr "Execute with --report to write list to CSV and execute with --truncate to clear the data from them.");
  (* voluntarily dump a report of applications to disk *)
  _ ← (if args_report args then
         _ ← print (PStr "Writing apps to CSV.");
         write_stale_apps_to_csv stale_applications
       else mret tt);
  (* if the truncate argument isn't supplied, the script will exit
     gracefully here *)
  if negb (args_truncate args) then mret (Exit 0)
  else
    _ ← truncate srv servername stale_applications;
    mret EndOfScript.

End Main.

(* ===================================================================== *)
(** * Vocabulary of the statements                                        *)
(* ===================================================================== *)

Section Vocabulary.

Variable strptime : string -> option datetime.
Variable local_epoch : datetime.

(** [doc['qMeta']['published']]. *)
Definition published_of (doc : pyval) : result pyval :=
  qMeta ← getitem doc "qMeta";
  getitem qMeta "published".

(** The publication test of line 73 succeeds on [doc]. *)
Definition passes_publication (include_published : bool) (doc : pyval) : Prop :=
  exists p, published_of doc = Ok p /\ in_bools p false include_published = true.

(** The staleness test of line 83 succeeds on [doc], its reload time being
    [t]. *)
Definition passes_staleness (threshold : datetime) (doc : pyval) (t : datetime) : Prop :=
  reload_time_of strptime local_epoch doc = Ok t /\ t < threshold.

(** The size test of line 89 succeeds on [doc], its size being [s]. *)
Definition passes_size (min_mb : float) (doc : pyval) (s : float) : Prop :=
  size_of doc = Ok s /\ fltb min_mb s = true.

(** [c] is the entry that the loop body appends for [doc]. *)
Definition accepted (threshold : datetime) (min_mb : float)
    (include_published : bool) (doc : pyval) (c : stale_app) : Prop :=
  passes_publication include_published doc /\
  passes_staleness threshold doc (last_reload c) /\
  passes_size min_mb doc (size_mb c) /\
  getitem doc "qDocName" = Ok (app_name c) /\
  getitem doc "qDocId" = Ok (app_id c).

(** What justifies an entry [c] of the result of [stale_apps]: a document of
    the catalog whose rounded size is [size_mb c] and exceeds the floor,
    whose normalized reload time is [last_reload c] and lies before
    [now - days_stale] days, and whose publication flag equals [False]
    unless published documents are included. *)
Definition justified (now : datetime) (app_list : list pyval) (days_stale : Z)
    (min_mb : float) (include_published : bool) (c : stale_app) : Prop :=
  exists doc, doc ∈ app_list /\
    (size_of doc = Ok (size_mb c) /\ fltb min_mb (size_mb c) = true) /\
    (reload_time_of strptime local_epoch doc = Ok (last_reload c) /\
     last_reload c < now - days_stale * us_per_day) /\
    (exists p, published_of doc = Ok p /\
               (eq_bool p false = true \/ include_published = true)).

(** [doc] contributes the entries [new] to the result of [stale_apps],
    wherever it stands in a catalog whose other documents are evaluated
    without error. *)
Definition contributes (now : datetime) (days_stale : Z) (min_mb : float)
    (include_published : bool) (doc : pyval) (new : list stale_app) : Prop :=
  forall pre post a b,
    stale_apps strptime local_epoch now pre days_stale min_mb include_published = Ok a ->
    stale_apps strptime local_epoch now post days_stale min_mb include_published = Ok b ->
    stale_apps strptime local_epoch now (pre ++ doc :: post)
      days_stale min_mb include_published = Ok (a ++ new ++ b).

End Vocabulary.

(** [now - timedelta(days=days_stale)] when it is a valid datetime. *)
Definition threshold_of (now : datetime) (days_stale : Z) : result datetime :=
  delta ← timedelta_days days_stale;
  datetime_sub now delta.

(** An artifact as the inventory reports it, with a size in bytes. *)
Definition with_size (d : gmap string pyval) (bytes : Z) : pyval :=
  PDict (<["qFileSize" := PInt bytes]> d).

(** Running [m] from the trace [tr] returns, it does not raise. *)
Definition returns {A} (m : io A) (tr : trace) : Prop :=
  is_ok (m tr).1 = true.

(** The attempt of [drop_data_from_app srv host doc_id] started at [tr] gets
    as far as the reply to [OpenDoc], and that reply decodes to [response]:
    the connection is accepted, the greeting arrives, the message is
    delivered and answered. *)
Definition opens (srv : server) (host : string) (doc_id : pyval) (tr : trace)
    (response : pyval) : Prop :=
  exists greeting,
    let ws := length tr in
    let tr1 := tr ++ [Connect host true] in
    let tr2 := tr1 ++ [Recv ws (Some greeting)] in
    let tr3 := tr2 ++ [Send ws (OpenDoc_msg doc_id) true] in
    accept srv tr host = true /\
    respond srv tr1 = Some greeting /\
    deliver srv tr2 = true /\
    respond srv tr3 = Some (Some response).

(** The server accepts the connection opened at [tr] and greets it. *)
Definition greets (srv : server) (host : string) (tr : trace)
    (greeting : option pyval) : Prop :=
  accept srv tr host = true /\
  respond srv (tr ++ [Connect host true]) = Some greeting.

(** The server takes [message] on the connection [ws] at [tr] and answers
    with a frame that decodes to [response]. *)
Definition exchanges (srv : server) (ws : conn) (tr : trace)
    (message response : pyval) : Prop :=
  deliver srv tr = true /\
  respond srv (tr ++ [Send ws message true]) = Some (Some response).

(** The inventory request started at [tr] is answered by [response]. *)
Definition lists (srv : server) (host : string) (tr : trace)
    (response : pyval) : Prop :=
  exists greeting,
    greets srv host tr greeting /\
    exchanges srv (length tr)
      (tr ++ [Connect host true; Recv (length tr) (Some greeting)])
      GetDocList_msg response.

(** Every event of [evs] that names a connection names [ws]. *)
Definition on_connection (ws : conn) (evs : trace) : Prop :=
  Forall (fun e => match e with
                   | Send c _ _ | Recv c _ | Close c => c = ws
                   | _ => True
                   end) evs.

(** [m] hands nothing to a socket. *)
Definition silent {A} (m : io A) : Prop :=
  forall tr, sent (m tr).2 = sent tr.

(** Every message that [m] hands to a socket satisfies [P]. *)
Definition sends_only (P : pyval -> Prop) {A} (m : io A) : Prop :=
  forall tr, exists new, sent (m tr).2 = sent tr ++ new /\ Forall P new.

(** The lines that the truncation loop prints for [doc_ids], the first of
    which has the index [i]. *)
Fixpoint progress_lines (total i : nat) (doc_ids : list pyval) : list pyval :=
  match doc_ids with
  | [] => []
  | _id :: rest => progress_line _id i total :: progress_lines total (S i) rest
  end.

(** The document that [message] asks the engine to open, when it is an
    [OpenDoc] message. *)
Definition doc_requested (message : pyval) : option pyval :=
  match getitem message "method" with
  | Ok (PStr "OpenDoc") =>
      match getitem message "params" with
      | Ok params => match getitem params "qDocName" with
                     | Ok n => Some n
                     | Raise _ => None
                     end
      | Raise _ => None
      end
  | _ => None
  end.

(** The documents that the [OpenDoc] messages handed to a socket in [tr]
    ask for, in order. *)
Definition requested (tr : trace) : list pyval :=
  omap doc_requested (sent tr).

(* ===================================================================== *)
(** * Concrete scenarios                                                  *)
(* ===================================================================== *)

Module Sample.

(** ** A parser for the timestamp format [%Y-%m-%dT%H:%M:%S.%fZ] *)

Definition digit (a : Ascii.ascii) : option Z :=
  let n := Z.of_nat (Ascii.nat_of_ascii a) in
  if (48 <=? n) && (n <=? 57) then Some (n - 48) else None.

Fixpoint number (acc : Z) (l : list Ascii.ascii) : option Z :=
  match l with
  | [] => Some acc
  | a :: l' => match digit a with
               | Some d => number (10 * acc + d) l'
               | None => None
               end
  end.

Definition is_leap (y : Z) : bool :=
  ((y mod 4 =? 0) && negb (y mod 100 =? 0)) || (y mod 400 =? 0).

Definition days_in_month (y m : Z) : Z :=
  if m =? 2 then (if is_leap y then 29 else 28)
  else if (m =? 4) || (m =? 6) || (m =? 9) || (m =? 11) then 30 else 31.

Definition days_before_month (y m : Z) : Z :=
  foldr Z.add 0 (map (days_in_month y) (map Z.of_nat (seq 1 (Z.to_nat (m - 1))))).

Definition days_before_year (y : Z) : Z :=
  let p := y - 1 in p * 365 + p / 4 - p / 100 + p / 400.

Definition make_datetime (y mo d h mi s us : Z) : option datetime :=
  if (1 <=? y) && (y <=? 9999) && (1 <=? mo) && (mo <=? 12)
     && (1 <=? d) && (d <=? days_in_month y mo)
     && (h <? 24) && (mi <? 60) && (s <? 60)
  then Some ((days_before_year y + days_before_month y mo + (d - 1)) * us_per_day
             + ((h * 60 + mi) * 60 + s) * 1000000 + us)
  else None.

(** A field of the text: what precedes the first character that [stop]
    accepts, and what follows that character. *)
Fixpoint field (stop : Ascii.ascii -> bool) (l : list Ascii.ascii)
  : option (list Ascii.ascii * list Ascii.ascii) :=
  match l with
  | [] => None
  | a :: l' =>
      if stop a then Some ([], l')
      else match field stop l' with
           | Some (f, r) => Some (a :: f, r)
           | None => None
           end
  end.

(** A literal letter of the format matches in either case. *)
Definition is_char (c : Ascii.ascii) (a : Ascii.ascii) : bool :=
  bool_decide (a = c).

Definition is_letter (upper lower : Ascii.ascii) (a : Ascii.ascii) : bool :=
  is_char upper a || is_char lower a.

(** The directives: [%Y] is [\d\d\d\d]; [%m] is [1[0-2]|0[1-9]|[1-9]];
    [%d] is [3[0-1]|[1-2]\d|0[1-9]|[1-9]| [1-9]]; [%H] is
    [2[0-3]|[0-1]\d|\d]; [%M] is [[0-5]\d|\d]; [%S] is [6[0-1]|[0-5]\d|\d];
    [%f] is [[0-9]{1,6}], padded with zeros on the right. *)
Definition directive_Y (l : list Ascii.ascii) : option Z :=
  match l with
  | [_; _; _; _] => number 0 l
  | _ => None
  end.

Definition directive_m (l : list Ascii.ascii) : option Z :=
  match mapM digit l with
  | Some [a] => if 1 <=? a then Some a else None
  | Some [a; b] =>
      if ((a =? 1) && (b <=? 2)) || ((a =? 0) && (1 <=? b))
      then Some (10 * a + b) else None
  | _ => None
  end.

Definition directive_d (l : list Ascii.ascii) : option Z :=
  match l with
  | [" "; b]%char =>
      match digit b with
      | Some d => if 1 <=? d then Some d else None
      | None => None
      end
  | _ =>
      match mapM digit l with
      | Some [a] => if 1 <=? a then Some a else None
      | Some [a; b] =>
          if ((a =? 3) && (b <=? 1)) || ((1 <=? a) && (a <=? 2))
             || ((a =? 0) && (1 <=? b))
          then Some (10 * a + b) else None
      | _ => None
      end
  end.

Definition directive_H (l : list Ascii.ascii) : option Z :=
  match mapM digit l with
  | Some [a] => Some a
  | Some [a; b] =>
      if ((a =? 2) && (b <=? 3)) || (a <=? 1) then Some (10 * a + b) else None
  | _ => None
  end.

Definition directive_M (l : list Ascii.ascii) : option Z :=
  match mapM digit l with
  | Some [a] => Some a
  | Some [a; b] => if a <=? 5 then Some (10 * a + b) else None
  | _ => None
  end.

Definition directive_S (l : list Ascii.ascii) : option Z :=
  match mapM digit l with
  | Some [a] => Some a
  | Some [a; b] =>
      if ((a =? 6) && (b <=? 1)) || (a <=? 5) then Some (10 * a + b) else None
  | _ => None
  end.

Definition directive_f (l : list Ascii.ascii) : option Z :=
  if (1 <=? length l)%nat && (length l <=? 6)%nat
  then number 0 (l ++ replicate (6 - length l) "0"%char)
  else None.

(** [dt.strptime(s, '%Y-%m-%dT%H:%M:%S.%fZ')] on text whose digits are
    ASCII: [None] stands for [ValueError].  The fields are the digits
    between the literal characters of the format; the whole text has to be
    consumed, and the fields have to name a date and a time that exist. *)
Definition strptime (s : string) : option datetime :=
  '(fY, r) ← field (is_char "-") (String.list_ascii_of_string s);
  '(fm, r) ← field (is_char "-") r;
  '(fd, r) ← field (is_letter "T" "t") r;
  '(fH, r) ← field (is_char ":") r;
  '(fM, r) ← field (is_char ":") r;
  '(fS, r) ← field (is_char ".") r;
  '(ff, r) ← field (is_letter "Z" "z") r;
  match r with
  | [] =>
      y ← directive_Y fY;
      mo ← directive_m fm;
      d ← directive_d fd;
      h ← directive_H fH;
      mi ← directive_M fM;
      sec ← directive_S fS;
      us ← directive_f ff;
      make_datetime y mo d h mi sec us
  | _ => None
  end.

(** ** Floats and documents *)

Definition f1 : float := S754_finite false 4503599627370496 (-52).
Definition f2 : float := S754_finite false 4503599627370496 (-51).

(** An entry of the document list: everything but the size, then the
    whole. *)
Definition meta (name id : string) (published : pyval)
    (reloaded : option pyval) : gmap string pyval :=
  dict_of ([("qDocName", PStr name); ("qDocId", PStr id);
            ("qMeta", mkdict [("published", published)])]
           ++ match reloaded with
              | Some v => [("qLastReloadTime", v)]
              | None => []
              end).

Definition doc (name id : string) (published : pyval) (bytes : Z)
    (reloaded : option pyval) : pyval :=
  with_size (meta name id published reloaded) bytes.

(** The catalog of the end-to-end scenario; [ts] is the reload timestamp. *)
Definition catalog (ts : string) : list pyval :=
  [doc "A" "1" (PBool false) (2 * 1024 * 1024) (Some (PStr ts));
   doc "B" "2" (PBool true) (2 * 1024 * 1024) (Some (PStr ts));
   doc "C" "3" (PBool false) (500 * 1024) (Some (PStr ts))].

Definition ts_2021 : string := "2021-01-01T00:00:00.000000Z".
Definition t_2021 : datetime := 737790 * us_per_day.

(** ** Servers *)

(** A successful reply to [OpenDoc]. *)
Definition opened_reply (handle : pyval) : pyval :=
  mkdict [("jsonrpc", PStr "2.0");
          ("result", mkdict [("qReturn", mkdict [("qType", PStr "Doc");
                                                 ("qHandle", handle)])])].

(** A reply to [OpenDoc] whose object is not a document. *)
Definition null_reply : pyval :=
  mkdict [("jsonrpc", PStr "2.0");
          ("result", mkdict [("qReturn", mkdict [("qType", PNone);
                                                 ("qHandle", PNone)])])].

(** An error reply: it has no ['result']. *)
Definition error_reply : pyval :=
  mkdict [("jsonrpc", PStr "2.0");
          ("error", mkdict [("code", PInt 1003);
                            ("message", PStr "Resource not found")])].

Definition saved_reply : pyval :=
  mkdict [("jsonrpc", PStr "2.0"); ("result", mkdict [])].

Definition greeting : pyval :=
  mkdict [("method", PStr "OnConnected")].

(** The name of the document an [OpenDoc] message asks for. *)
Definition asked (message : pyval) : option pyval :=
  match getitem message "method" with
  | Ok (PStr "OpenDoc") =>
      match getitem message "params" with
      | Ok params => match getitem params "qDocName" with
                     | Ok n => Some n
                     | Raise _ => None
                     end
      | Raise _ => None
      end
  | _ => None
  end.

(** A server that accepts every connection and every frame, greets,
    answers [bad] to an [OpenDoc] of document ["2"], opens every other
    document with handle 1 and acknowledges every other call. *)
Definition answering (bad : pyval) : server :=
  {| accept := fun _ _ => true;
     deliver := fun _ => true;
     respond := fun tr =>
       match last tr with
       | Some (Send _ message _) =>
           match asked message with
           | Some (PStr "2") => Some (Some bad)
           | Some _ => Some (Some (opened_reply (PInt 1)))
           | None => Some (Some saved_reply)
           end
       | _ => Some (Some greeting)
       end |}.

(** The reply to [GetDocList] that lists [docs]. *)
Definition inventory_reply (docs : list pyval) : pyval :=
  mkdict [("jsonrpc", PStr "2.0");
          ("result", mkdict [("qDocList", PList docs)])].

(** A server that accepts every connection and every frame, greets, lists
    [docs] when asked for the inventory, opens every document with handle 1
    and acknowledges every other call. *)
Definition listing (docs : list pyval) : server :=
  {| accept := fun _ _ => true;
     deliver := fun _ => true;
     respond := fun tr =>
       match last tr with
       | Some (Send _ message _) =>
           match getitem message "method" with
           | Ok (PStr "GetDocList") => Some (Some (inventory_reply docs))
           | Ok (PStr "OpenDoc") => Some (Some (opened_reply (PInt 1)))
           | _ => Some (Some saved_reply)
           end
       | _ => Some (Some greeting)
       end |}.

(** A command line that asks for a report, with or without truncation; a
    report writer that writes nothing and a summation that returns zero
    stand for the two library-bound parameters of [main]. *)
Definition args (truncate : bool) : arguments :=
  {| args_host := "qs"; args_days := 180; args_min := f1;
     args_include_published := false; args_report := true;
     args_truncate := truncate |}.

Definition no_report (apps : list stale_app) : io unit := mret tt.

Definition no_sum (l : list float) : float := S754_zero false.

End Sample.

(* ===================================================================== *)
(** * Facts about the Python fragment                                     *)
(* ===================================================================== *)

Lemma bind_Ok {A B} (a : A) (k : A -> result B) : (Ok a ≫= k) = k a.
Proof. reflexivity. Qed.

Lemma bind_Raise {A B} (e : exn) (k : A -> result B) : (Raise e ≫= k) = Raise e.
Proof. reflexivity. Qed.

Lemma bind_Ok_inv {A B} (r : result A) (k : A -> result B) (b : B) :
  (r ≫= k) = Ok b -> exists a, r = Ok a /\ k a = Ok b.
Proof. destruct r as [a|e]; [eauto | discriminate]. Qed.

(** The model of [/] and [round] on known values of Python:
    [2097152 / 1024 / 1024 = 2.0], [round(512000 / 1024 / 1024, 2) = 0.49],
    and ties go to the even digit, [round(0.125, 2) = 0.12] and
    [round(0.375, 2) = 0.38]. *)
Example size_of_2MiB doc :
  getitem doc "qFileSize" = Ok (PInt 2097152) ->
  size_of doc = Ok (S754_finite false 4503599627370496 (-51)).
Proof. intros H. unfold size_of. rewrite H. vm_compute. reflexivity. Qed.

Example size_of_500KiB doc :
  getitem doc "qFileSize" = Ok (PInt 512000) ->
  size_of doc = Ok (S754_finite false 8827055269646172 (-54)).
Proof. intros H. unfold size_of. rewrite H. vm_compute. reflexivity. Qed.

Example round_ties_to_even :
  round_float (S754_finite false 4503599627370496 (-55)) 2
  = Ok (ratio_to_float 12 100) /\
  round_float (S754_finite false 6755399441055744 (-54)) 2
  = Ok (ratio_to_float 38 100).
Proof. split; vm_compute; reflexivity. Qed.

Ltac inv_bind H :=
  let a := fresh "x" in
  let Ha := fresh "E" in
  apply bind_Ok_inv in H as (a & Ha & H).

(** The order on floats is transitive: a floor below a floor that a size
    exceeds is exceeded too. *)
Lemma fleb_fltb_trans (a b c : float) :
  fleb a b = true -> fltb b c = true -> fltb a c = true.
Proof.
  unfold fleb, fltb, SFleb, SFltb, SFcompare.
  destruct a as [sa|sa| |sa ma ea], b as [sb|sb| |sb mb eb],
           c as [sc|sc| |sc mc ec];
    try destruct sa; try destruct sb; try destruct sc;
    try discriminate; try reflexivity;
    change (Pos.compare_cont Eq) with Pos.compare;
    repeat match goal with
           | |- context [Z.compare ?x ?y] => destruct (Z.compare_spec x y)
           | |- context [Pos.compare ?x ?y] => destruct (Pos.compare_spec x y)
           end; simpl; try discriminate; try reflexivity; intros _ _; lia.
Qed.

(** Equal floats are not ordered strictly. *)
Lemma feqb_not_fltb (a b : float) : feqb a b = true -> fltb b a = false.
Proof.
  unfold feqb, fltb, SFeqb, SFltb, SFcompare.
  destruct a as [sa|sa| |sa ma ea], b as [sb|sb| |sb mb eb];
    try destruct sa; try destruct sb; try discriminate; try reflexivity;
    change (Pos.compare_cont Eq) with Pos.compare;
    repeat match goal with
           | |- context [Z.compare ?x ?y] => destruct (Z.compare_spec x y)
           | |- context [Pos.compare ?x ?y] => destruct (Pos.compare_spec x y)
           end; simpl; try discriminate; try reflexivity; intros _; lia.
Qed.

Lemma in_bools_false (p : pyval) (include_published : bool) :
  in_bools p false include_published = true ->
  eq_bool p false = true \/ include_published = true.
Proof.
  unfold in_bools. destruct include_published; [auto|].
  rewrite orb_diag. auto.
Qed.

Lemma in_bools_mono (p : pyval) :
  in_bools p false false = true -> in_bools p false true = true.
Proof. unfold in_bools. rewrite orb_diag. intros ->. reflexivity. Qed.

Lemma datetime_sub_Ok (t delta r : datetime) :
  datetime_sub t delta = Ok r <-> r = t - delta /\ datetime_ok r.
Proof.
  unfold datetime_sub, datetime_ok.
  destruct (Z.leb_spec 0 (t - delta)) as [Hlo|Hlo],
           (Z.leb_spec (t - delta) datetime_max) as [Hhi|Hhi];
    simpl; split; intros Hr; try discriminate; try lia.
  - inversion Hr; subst. lia.
  - destruct Hr as [-> _]. reflexivity.
Qed.

Lemma threshold_of_Ok (now : datetime) (days_stale : Z) (th : datetime) :
  threshold_of now days_stale = Ok th ->
  th = now - days_stale * us_per_day /\ datetime_ok th.
Proof.
  unfold threshold_of, timedelta_days. intros H.
  destruct (Z.abs days_stale <=? 999999999); [|discriminate].
  rewrite bind_Ok in H. apply datetime_sub_Ok in H. exact H.
Qed.

Lemma threshold_of_intro (now : datetime) (days_stale : Z) :
  0 <= days_stale <= 999999999 ->
  datetime_ok (now - days_stale * us_per_day) ->
  threshold_of now days_stale = Ok (now - days_stale * us_per_day).
Proof.
  intros Hd Hok. unfold threshold_of, timedelta_days.
  destruct (Z.leb_spec (Z.abs days_stale) 999999999) as [_|Habs]; [|lia].
  rewrite bind_Ok. apply datetime_sub_Ok. auto.
Qed.

(* ===================================================================== *)
(** * The retention evaluator: the loop                                   *)
(* ===================================================================== *)

Section EvaluatorFacts.

Variable strptime : string -> option datetime.
Variable local_epoch : datetime.

Abbreviation body := (stale_apps_body strptime local_epoch).
Abbreviation loop := (stale_apps_loop strptime local_epoch).
Abbreviation accepted := (accepted strptime local_epoch).
Abbreviation passes_staleness := (passes_staleness strptime local_epoch).

(** An iteration whose three tests succeed appends one entry. *)
Lemma body_accepted th m ip acc doc c :
  accepted th m ip doc c -> body th m ip acc doc = Ok (acc ++ [c]).
Proof.
  intros ((p & Hp & Hin) & (Hrt & Hlt) & (Hs & Hm) & Hn & Hi).
  unfold published_of in Hp. inv_bind Hp.
  unfold stale_apps_body.
  rewrite E, bind_Ok, Hp, bind_Ok, Hin, Hrt, bind_Ok.
  apply Z.ltb_lt in Hlt. rewrite Hlt, Hs, bind_Ok, Hm, Hn, bind_Ok, Hi.
  rewrite !bind_Ok. destruct c; reflexivity.
Qed.

(** An iteration that returns leaves the list alone or appends one entry
    whose document passed the three tests. *)
Lemma body_inv th m ip acc doc out :
  body th m ip acc doc = Ok out ->
  out = acc \/ exists c, out = acc ++ [c] /\ accepted th m ip doc c.
Proof.
  unfold stale_apps_body. intros H.
  inv_bind H. rename x into qMeta, E into Hmeta.
  inv_bind H. rename x into p, E into Hp.
  destruct (in_bools p false ip) eqn:Hin; [|left; congruence].
  inv_bind H. rename x into rt, E into Hrt.
  destruct (rt <? th) eqn:Hlt; [|left; congruence].
  inv_bind H. rename x into s, E into Hs.
  destruct (fltb m s) eqn:Hm; [|left; congruence].
  inv_bind H. rename x into name, E into Hn.
  inv_bind H. rename x into id, E into Hi.
  inv_bind H. rename x into s', E into Hs'.
  assert (s' = s) as -> by congruence.
  right. exists (StaleApp name id s rt). split; [congruence|].
  apply Z.ltb_lt in Hlt.
  repeat split; simpl; auto.
  exists p. split; [|exact Hin].
  unfold published_of. rewrite Hmeta. exact Hp.
Qed.

(** The entry appended for a document is determined by the document. *)
Lemma accepted_unique th m ip th' m' ip' doc c c' :
  accepted th m ip doc c -> accepted th' m' ip' doc c' -> c = c'.
Proof.
  intros (_ & (Hrt & _) & (Hs & _) & Hn & Hi) (_ & (Hrt' & _) & (Hs' & _) & Hn' & Hi').
  destruct c, c'; simpl in *. congruence.
Qed.

(** A stricter policy accepts no more than a laxer one. *)
Lemma accepted_mono th1 m1 ip1 th2 m2 ip2 doc c :
  th2 <= th1 ->
  (forall s, fltb m2 s = true -> fltb m1 s = true) ->
  (ip2 = true -> ip1 = true) ->
  accepted th2 m2 ip2 doc c -> accepted th1 m1 ip1 doc c.
Proof.
  intros Hth Hm Hip ((p & Hp & Hin) & (Hrt & Hlt) & (Hs & Hsz) & Hn & Hi).
  repeat split; auto; try lia.
  exists p. split; [exact Hp|].
  destruct ip2.
  - rewrite Hip; auto.
  - destruct ip1; [apply in_bools_mono|]; exact Hin.
Qed.

(** The tests that end an iteration without an entry. *)
Lemma body_unpublished th m ip acc doc p :
  published_of doc = Ok p -> in_bools p false ip = false ->
  body th m ip acc doc = Ok acc.
Proof.
  intros Hp Hin. unfold published_of in Hp. inv_bind Hp.
  unfold stale_apps_body. rewrite E, bind_Ok, Hp, bind_Ok, Hin. reflexivity.
Qed.

Lemma body_fresh th m ip acc doc t :
  passes_publication ip doc ->
  reload_time_of strptime local_epoch doc = Ok t -> th <= t ->
  body th m ip acc doc = Ok acc.
Proof.
  intros (p & Hp & Hin) Hrt Hge. unfold published_of in Hp. inv_bind Hp.
  unfold stale_apps_body.
  rewrite E, bind_Ok, Hp, bind_Ok, Hin, Hrt, bind_Ok.
  apply Z.ltb_ge in Hge. rewrite Hge. reflexivity.
Qed.

Lemma body_small th m ip acc doc t s :
  passes_publication ip doc -> passes_staleness th doc t ->
  size_of doc = Ok s -> fltb m s = false ->
  body th m ip acc doc = Ok acc.
Proof.
  intros (p & Hp & Hin) (Hrt & Hlt) Hs Hm. unfold published_of in Hp. inv_bind Hp.
  unfold stale_apps_body.
  rewrite E, bind_Ok, Hp, bind_Ok, Hin, Hrt, bind_Ok.
  apply Z.ltb_lt in Hlt. rewrite Hlt, Hs, bind_Ok, Hm. reflexivity.
Qed.

(** The list built so far is only ever extended. *)
Lemma body_acc th m ip acc doc :
  body th m ip acc doc = (new ← body th m ip [] doc; Ok (acc ++ new)).
Proof.
  unfold stale_apps_body.
  destruct (getitem doc "qMeta") as [qMeta|e]; [|reflexivity].
  rewrite !bind_Ok.
  destruct (getitem qMeta "published") as [p|e]; [|reflexivity].
  rewrite !bind_Ok.
  destruct (in_bools p false ip); [|by rewrite bind_Ok, app_nil_r].
  destruct (reload_time_of strptime local_epoch doc) as [rt|e]; [|reflexivity].
  rewrite !bind_Ok.
  destruct (rt <? th); [|by rewrite bind_Ok, app_nil_r].
  destruct (size_of doc) as [s|e]; [|reflexivity].
  rewrite !bind_Ok.
  destruct (fltb m s); [|by rewrite bind_Ok, app_nil_r].
  destruct (getitem doc "qDocName") as [name|e]; [|reflexivity].
  rewrite !bind_Ok.
  destruct (getitem doc "qDocId") as [id|e]; reflexivity.
Qed.

Lemma loop_acc th m ip app_list acc :
  loop th m ip app_list acc = (new ← loop th m ip app_list []; Ok (acc ++ new)).
Proof.
  revert acc. induction app_list as [|doc rest IH]; intros acc;
    cbn [stale_apps_loop].
  - by rewrite bind_Ok, app_nil_r.
  - rewrite body_acc.
    destruct (body th m ip [] doc) as [new|e]; [|reflexivity].
    rewrite !bind_Ok, (IH (acc ++ new)), (IH new).
    destruct (loop th m ip rest []) as [more|e]; [|reflexivity].
    rewrite !bind_Ok. simpl. by rewrite app_assoc.
Qed.

Lemma loop_app th m ip l1 l2 acc :
  loop th m ip (l1 ++ l2) acc = (mid ← loop th m ip l1 acc; loop th m ip l2 mid).
Proof.
  revert acc. induction l1 as [|doc rest IH]; intros acc;
    cbn [app stale_apps_loop].
  - reflexivity.
  - destruct (body th m ip acc doc) as [acc'|e]; [|reflexivity].
    rewrite !bind_Ok. apply IH.
Qed.

(** Every entry of the result was appended for a document of the list that
    passed the three tests. *)
Lemma loop_invariant th m ip app_list acc out :
  loop th m ip app_list acc = Ok out ->
  exists new, out = acc ++ new /\
    Forall (fun c => exists doc, doc ∈ app_list /\ accepted th m ip doc c) new.
Proof.
  revert acc. induction app_list as [|doc rest IH]; intros acc H;
    cbn [stale_apps_loop] in H.
  - exists []. split; [by inversion H; rewrite app_nil_r | constructor].
  - inv_bind H. rename x into acc', E into Hbody.
    apply IH in H as (new & -> & Hall).
    assert (Hrest : Forall (fun c => exists d, d ∈ doc :: rest /\ accepted th m ip d c) new).
    { eapply Forall_impl; [exact Hall|].
      intros c (d & Hd & Hc). exists d. split; [by right | exact Hc]. }
    apply body_inv in Hbody as [->|(c & -> & Hc)].
    + exists new. auto.
    + exists (c :: new). split; [by rewrite <- app_assoc|].
      constructor; [|exact Hrest]. exists doc. split; [by left | exact Hc].
Qed.

(** Under a stricter policy the list grows no faster. *)
Lemma loop_mono th1 m1 ip1 th2 m2 ip2 app_list acc1 acc2 out1 out2 :
  th2 <= th1 ->
  (forall s, fltb m2 s = true -> fltb m1 s = true) ->
  (ip2 = true -> ip1 = true) ->
  loop th1 m1 ip1 app_list acc1 = Ok out1 ->
  loop th2 m2 ip2 app_list acc2 = Ok out2 ->
  (length acc2 <= length acc1)%nat ->
  (length out2 <= length out1)%nat.
Proof.
  intros Hth Hm Hip. revert acc1 acc2.
  induction app_list as [|doc rest IH]; intros acc1 acc2 H1 H2 Hlen;
    cbn [stale_apps_loop] in H1, H2.
  - inversion H1; inversion H2; subst. exact Hlen.
  - inv_bind H1. rename x into a1, E into B1.
    inv_bind H2. rename x into a2, E into B2.
    apply (IH a1 a2 H1 H2).
    apply body_inv in B2 as [->|(c & -> & Hc)].
    + apply body_inv in B1 as [->|(c1 & -> & _)]; [exact Hlen|].
      rewrite length_app. lia.
    + apply (accepted_mono th1 m1 ip1) in Hc; auto.
      rewrite (body_accepted _ _ _ acc1 _ _ Hc) in B1.
      inversion B1; subst. rewrite !length_app. simpl. lia.
Qed.

End EvaluatorFacts.

(* ===================================================================== *)
(** * The retention evaluator: [stale_apps]                               *)
(* ===================================================================== *)

Section StaleApps.

Variable strptime : string -> option datetime.
Variable local_epoch : datetime.

Abbreviation run := (stale_apps strptime local_epoch).
Abbreviation loop' := (stale_apps_loop strptime local_epoch).

Lemma stale_apps_threshold now app_list days m ip :
  run now app_list days m ip =
  (th ← threshold_of now days; loop' th m ip app_list []).
Proof.
  unfold stale_apps, threshold_of.
  destruct (timedelta_days days) as [delta|e]; reflexivity.
Qed.

Lemma stale_apps_Ok now app_list days m ip out :
  run now app_list days m ip = Ok out ->
  exists th, threshold_of now days = Ok th /\ loop' th m ip app_list [] = Ok out.
Proof. rewrite stale_apps_threshold. apply bind_Ok_inv. Qed.

Lemma stale_apps_intro now app_list days m ip th out :
  threshold_of now days = Ok th -> loop' th m ip app_list [] = Ok out ->
  run now app_list days m ip = Ok out.
Proof. intros Hth H. by rewrite stale_apps_threshold, Hth, bind_Ok. Qed.

(** A document that yields [new] on its own yields [new] in any catalog. *)
Lemma contributes_alone now days m ip doc new :
  run now [doc] days m ip = Ok new ->
  contributes strptime local_epoch now days m ip doc new.
Proof.
  intros Hdoc pre post a b Hpre Hpost.
  apply stale_apps_Ok in Hdoc as (th & Hth & Hdoc).
  apply stale_apps_Ok in Hpre as (th1 & Hth1 & Hpre).
  apply stale_apps_Ok in Hpost as (th2 & Hth2 & Hpost).
  assert (th1 = th) as -> by congruence.
  assert (th2 = th) as -> by congruence.
  apply (stale_apps_intro _ _ _ _ _ th); [exact Hth|].
  rewrite loop_app, Hpre, bind_Ok.
  change (doc :: post) with ([doc] ++ post).
  rewrite loop_app, (loop_acc _ _ _ _ _ [doc]), Hdoc, !bind_Ok.
  by rewrite (loop_acc _ _ _ _ _ post), Hpost, bind_Ok, app_assoc.
Qed.

Lemma contributes_body now days m ip doc th new :
  threshold_of now days = Ok th ->
  stale_apps_body strptime local_epoch th m ip [] doc = Ok new ->
  contributes strptime local_epoch now days m ip doc new.
Proof.
  intros Hth Hbody. apply contributes_alone.
  apply (stale_apps_intro _ _ _ _ _ th); [exact Hth|].
  cbn [stale_apps_loop]. by rewrite Hbody.
Qed.

End StaleApps.

(** ** Looking documents up *)

Lemma getitem_with_size_ne d bytes k :
  k ≠ "qFileSize" -> getitem (with_size d bytes) k = getitem (PDict d) k.
Proof. intros Hk. unfold with_size, getitem. by rewrite lookup_insert_ne. Qed.

Lemma getitem_with_size d bytes :
  getitem (with_size d bytes) "qFileSize" = Ok (PInt bytes).
Proof. unfold with_size, getitem. by rewrite lookup_insert_eq. Qed.

Lemma published_of_with_size d bytes :
  published_of (with_size d bytes) = published_of (PDict d).
Proof. unfold published_of. by rewrite getitem_with_size_ne. Qed.

Lemma reload_time_of_with_size strptime local_epoch d bytes :
  reload_time_of strptime local_epoch (with_size d bytes) =
  reload_time_of strptime local_epoch (PDict d).
Proof.
  unfold reload_time_of, with_size, dict_get. by rewrite lookup_insert_ne.
Qed.

Lemma getitem_delete_ne d k k' :
  k ≠ k' -> getitem (PDict (delete k d)) k' = getitem (PDict d) k'.
Proof. intros Hk. unfold getitem. by rewrite lookup_delete_ne. Qed.

(** A document without a timestamp, or with a falsy one, is given the epoch;
    the parser is not consulted. *)
Lemma reload_time_of_missing strptime local_epoch (d : gmap string pyval) :
  d !! "qLastReloadTime" = None ->
  reload_time_of strptime local_epoch (PDict d) = Ok local_epoch.
Proof. intros H. unfold reload_time_of, dict_get. by rewrite H. Qed.

Lemma reload_time_of_falsy strptime local_epoch (d : gmap string pyval) v :
  d !! "qLastReloadTime" = Some v -> truthy v = false ->
  reload_time_of strptime local_epoch (PDict d) = Ok local_epoch.
Proof.
  intros H Hv. unfold reload_time_of, dict_get. rewrite H, bind_Ok. simpl.
  by rewrite Hv.
Qed.

(* ===================================================================== *)
(** * The retention evaluator: the properties of the specification        *)
(* ===================================================================== *)

(** C1.  Whatever the catalog, the policy and the evaluation instant, every
    entry of the list that [stale_apps] returns comes from a document of the
    catalog that meets the three conditions at once: its size in megabytes
    (bytes / 1024 / 1024 rounded to two decimals) is strictly greater than
    [min_mb], its normalized reload time is strictly earlier than [now] minus
    [days_stale] days, and its publication flag equals [False] or
    [include_published] is set. *)
Theorem stale_apps_filters strptime local_epoch now app_list days_stale
    min_mb include_published out :
  stale_apps strptime local_epoch now app_list days_stale min_mb
    include_published = Ok out ->
  Forall (justified strptime local_epoch now app_list days_stale min_mb
            include_published) out.
Proof.
  intros H. apply stale_apps_Ok in H as (th & Hth & H).
  apply threshold_of_Ok in Hth as [-> _].
  apply loop_invariant in H as (new & -> & Hall). simpl.
  eapply Forall_impl; [exact Hall|].
  intros c (doc & Hdoc & (p & Hp & Hin) & (Hrt & Hlt) & (Hs & Hm) & _).
  exists doc. split; [exact Hdoc|]. do 2 (split; [by split|]).
  exists p. split; [exact Hp|]. by apply in_bools_false.
Qed.

Lemma stale_apps_filters_witness :
  Forall (justified Sample.strptime unix_epoch (Sample.t_2021 + 200 * us_per_day)
            (Sample.catalog Sample.ts_2021) 180 Sample.f1 false)
    [StaleApp (PStr "A") (PStr "1") Sample.f2 Sample.t_2021].
Proof.
  apply (stale_apps_filters Sample.strptime unix_epoch
           (Sample.t_2021 + 200 * us_per_day) (Sample.catalog Sample.ts_2021)
           180 Sample.f1 false).
  vm_compute. reflexivity.
Defined.

(** C2.  The end-to-end scenario: of the three artifacts A (unpublished,
    2 MiB), B (published, 2 MiB) and C (unpublished, 500 KiB), all reloaded
    200 days before [now], the policy (180 days, 1 MB, published excluded)
    retains exactly A. *)
Theorem stale_apps_scenario strptime local_epoch now ts :
  ts <> "" ->
  strptime ts = Some (now - 200 * us_per_day) ->
  0 <= now - 200 * us_per_day ->
  now <= datetime_max ->
  stale_apps strptime local_epoch now (Sample.catalog ts) 180 Sample.f1 false
  = Ok [StaleApp (PStr "A") (PStr "1") Sample.f2 (now - 200 * us_per_day)].
Proof.
  intros Hne Hts Hlo Hhi.
  assert (Hth : threshold_of now 180 = Ok (now - 180 * us_per_day)).
  { apply threshold_of_intro; [lia|]. unfold datetime_ok, us_per_day in *. lia. }
  assert (Hrt : forall n i p b,
             reload_time_of strptime local_epoch
               (Sample.doc n i p b (Some (PStr ts))) = Ok (now - 200 * us_per_day)).
  { intros. unfold reload_time_of.
    replace (dict_get _ "qLastReloadTime") with (Ok (PStr ts)) by (vm_compute; reflexivity).
    rewrite bind_Ok. simpl.
    destruct ts; [congruence|]. simpl. by rewrite Hts. }
  assert (Hlt : now - 200 * us_per_day < now - 180 * us_per_day)
    by (unfold us_per_day; lia).
  apply (stale_apps_intro _ _ _ _ _ _ _ _ _ Hth).
  unfold Sample.catalog. cbn [stale_apps_loop].
  rewrite (body_accepted _ _ _ _ _ [] _
             (StaleApp (PStr "A") (PStr "1") Sample.f2 (now - 200 * us_per_day))).
  2:{ repeat split; simpl; auto; try (vm_compute; reflexivity).
      exists (PBool false). split; vm_compute; reflexivity. }
  rewrite bind_Ok.
  rewrite (body_unpublished _ _ _ _ _ _ _ (PBool true));
    [|vm_compute; reflexivity..].
  rewrite bind_Ok.
  rewrite (body_small _ _ _ _ _ _ _ (now - 200 * us_per_day)
             (S754_finite false 8827055269646172 (-54)));
    [reflexivity| |split; auto|vm_compute; reflexivity..].
  exists (PBool false). split; vm_compute; reflexivity.
Qed.

Lemma stale_apps_scenario_witness :
  stale_apps Sample.strptime unix_epoch (Sample.t_2021 + 200 * us_per_day)
    (Sample.catalog Sample.ts_2021) 180 Sample.f1 false
  = Ok [StaleApp (PStr "A") (PStr "1") Sample.f2
          (Sample.t_2021 + 200 * us_per_day - 200 * us_per_day)].
Proof.
  apply (stale_apps_scenario Sample.strptime unix_epoch
           (Sample.t_2021 + 200 * us_per_day) Sample.ts_2021).
  - discriminate.
  - vm_compute. reflexivity.
  - vm_compute. discriminate.
  - vm_compute. discriminate.
Defined.

(** C3.  Monotonicity, for a fixed catalog and evaluation instant: a larger
    [days_stale] never yields more entries, a larger [min_mb] never yields
    more entries, and setting [include_published] never yields fewer. *)
Theorem stale_apps_monotone strptime local_epoch now app_list :
  (forall d1 d2 m ip out1 out2,
      d1 <= d2 ->
      stale_apps strptime local_epoch now app_list d1 m ip = Ok out1 ->
      stale_apps strptime local_epoch now app_list d2 m ip = Ok out2 ->
      (length out2 <= length out1)%nat) /\
  (forall d m1 m2 ip out1 out2,
      fleb m1 m2 = true ->
      stale_apps strptime local_epoch now app_list d m1 ip = Ok out1 ->
      stale_apps strptime local_epoch now app_list d m2 ip = Ok out2 ->
      (length out2 <= length out1)%nat) /\
  (forall d m out_off out_on,
      stale_apps strptime local_epoch now app_list d m false = Ok out_off ->
      stale_apps strptime local_epoch now app_list d m true = Ok out_on ->
      (length out_off <= length out_on)%nat).
Proof.
  repeat split.
  - intros d1 d2 m ip out1 out2 Hd H1 H2.
    apply stale_apps_Ok in H1 as (th1 & Hth1 & H1).
    apply stale_apps_Ok in H2 as (th2 & Hth2 & H2).
    apply threshold_of_Ok in Hth1 as [-> _].
    apply threshold_of_Ok in Hth2 as [-> _].
    refine (loop_mono _ _ _ _ _ _ _ _ _ _ _ _ _ _ _ _ H1 H2 _); auto.
    unfold us_per_day. lia.
  - intros d m1 m2 ip out1 out2 Hm H1 H2.
    apply stale_apps_Ok in H1 as (th1 & Hth1 & H1).
    apply stale_apps_Ok in H2 as (th2 & Hth2 & H2).
    assert (th2 = th1) as -> by congruence.
    refine (loop_mono _ _ _ _ _ _ _ _ _ _ _ _ _ _ _ _ H1 H2 _); auto; [lia|].
    intros s. by apply fleb_fltb_trans.
  - intros d m out_off out_on H1 H2.
    apply stale_apps_Ok in H1 as (th1 & Hth1 & H1).
    apply stale_apps_Ok in H2 as (th2 & Hth2 & H2).
    assert (th2 = th1) as -> by congruence.
    refine (loop_mono _ _ _ _ _ _ _ _ _ _ _ _ _ _ _ _ H2 H1 _); auto. lia.
Qed.

Lemma stale_apps_monotone_witness :
  (length (@nil stale_app)
   <= length [StaleApp (PStr "A") (PStr "1") Sample.f2 Sample.t_2021])%nat /\
  (length (@nil stale_app)
   <= length [StaleApp (PStr "A") (PStr "1") Sample.f2 Sample.t_2021])%nat /\
  (length [StaleApp (PStr "A") (PStr "1") Sample.f2 Sample.t_2021]
   <= length [StaleApp (PStr "A") (PStr "1") Sample.f2 Sample.t_2021;
              StaleApp (PStr "B") (PStr "2") Sample.f2 Sample.t_2021])%nat.
Proof.
  destruct (stale_apps_monotone Sample.strptime unix_epoch
              (Sample.t_2021 + 200 * us_per_day) (Sample.catalog Sample.ts_2021))
    as (Hdays & Hmin & Hpub).
  split; [|split].
  - apply (Hdays 180 365 Sample.f1 false); [lia|vm_compute; reflexivity..].
  - apply (Hmin 180 Sample.f1 Sample.f2 false); vm_compute; reflexivity.
  - apply (Hpub 180 Sample.f1); vm_compute; reflexivity.
Defined.

(** C4, as the code has it.  An artifact without a reload timestamp is given
    the epoch of the local time zone as its reload time.  For a policy whose
    other tests it passes and whose threshold [now - days_stale] days is a
    valid datetime, it is retained when the epoch lies strictly before the
    threshold, and dropped by the staleness test when the threshold is at or
    before the epoch, which happens once [days_stale] reaches the number of
    days elapsed since the epoch. *)
Theorem missing_timestamp_stale strptime local_epoch now days_stale min_mb
    include_published (d : gmap string pyval) name id size :
  d !! "qLastReloadTime" = None ->
  0 <= days_stale <= 999999999 ->
  datetime_ok (now - days_stale * us_per_day) ->
  passes_publication include_published (PDict d) ->
  passes_size min_mb (PDict d) size ->
  getitem (PDict d) "qDocName" = Ok name ->
  getitem (PDict d) "qDocId" = Ok id ->
  reload_time_of strptime local_epoch (PDict d) = Ok local_epoch /\
  (local_epoch < now - days_stale * us_per_day ->
   contributes strptime local_epoch now days_stale min_mb include_published
     (PDict d) [StaleApp name id size local_epoch]) /\
  (now - days_stale * us_per_day <= local_epoch ->
   contributes strptime local_epoch now days_stale min_mb include_published
     (PDict d) []).
Proof.
  intros Hd Hdays Hok Hpub Hsize Hname Hid.
  pose proof (reload_time_of_missing strptime local_epoch d Hd) as Hrt.
  pose proof (threshold_of_intro now days_stale Hdays Hok) as Hth.
  split; [exact Hrt|]. split; intros Hcmp.
  - apply (contributes_body _ _ _ _ _ _ _ _ _ Hth).
    apply (body_accepted _ _ _ _ _ [] _ (StaleApp name id size local_epoch)).
    repeat split; simpl; auto; apply Hsize.
  - apply (contributes_body _ _ _ _ _ _ _ _ _ Hth).
    by apply (body_fresh _ _ _ _ _ _ _ local_epoch).
Qed.

Lemma missing_timestamp_stale_witness :
  reload_time_of Sample.strptime unix_epoch
    (PDict (<["qFileSize" := PInt (2 * 1024 * 1024)]>
              (Sample.meta "A" "1" (PBool false) None))) = Ok unix_epoch /\
  contributes Sample.strptime unix_epoch Sample.t_2021 180 Sample.f1 false
    (PDict (<["qFileSize" := PInt (2 * 1024 * 1024)]>
              (Sample.meta "A" "1" (PBool false) None)))
    [StaleApp (PStr "A") (PStr "1") Sample.f2 unix_epoch].
Proof.
  destruct (missing_timestamp_stale Sample.strptime unix_epoch Sample.t_2021
              180 Sample.f1 false
              (<["qFileSize" := PInt (2 * 1024 * 1024)]>
                 (Sample.meta "A" "1" (PBool false) None))
              (PStr "A") (PStr "1") Sample.f2) as (Hrt & Hstale & _).
  - vm_compute. reflexivity.
  - lia.
  - vm_compute. split; discriminate.
  - exists (PBool false). split; vm_compute; reflexivity.
  - split; vm_compute; reflexivity.
  - vm_compute. reflexivity.
  - vm_compute. reflexivity.
  - split; [exact Hrt|]. apply Hstale. vm_compute. reflexivity.
Defined.

(** C4 fails as stated: on 2021-01-01 an unpublished 2 MiB artifact without
    a timestamp is retained with [days_stale = 180] and dropped with
    [days_stale = 20000], the threshold then lying in 1966. *)
Lemma missing_timestamp_counterexample :
  stale_apps Sample.strptime unix_epoch Sample.t_2021
    [Sample.doc "A" "1" (PBool false) (2 * 1024 * 1024) None] 180 Sample.f1 false
  = Ok [StaleApp (PStr "A") (PStr "1") Sample.f2 unix_epoch] /\
  0 <= 20000 /\
  stale_apps Sample.strptime unix_epoch Sample.t_2021
    [Sample.doc "A" "1" (PBool false) (2 * 1024 * 1024) None] 20000 Sample.f1 false
  = Ok [].
Proof. split; [|split]; [vm_compute; reflexivity | lia | vm_compute; reflexivity]. Qed.

(** C5, as the code has it.  For an artifact that passes the publication and
    staleness tests: when its rounded size equals [min_mb] it is dropped;
    the artifact one byte larger is retained exactly when its own rounded
    size exceeds [min_mb], not otherwise. *)
Theorem size_floor_boundary strptime local_epoch now days_stale min_mb
    include_published (d : gmap string pyval) bytes th t name id :
  threshold_of now days_stale = Ok th ->
  passes_publication include_published (PDict d) ->
  passes_staleness strptime local_epoch th (PDict d) t ->
  getitem (PDict d) "qDocName" = Ok name ->
  getitem (PDict d) "qDocId" = Ok id ->
  (forall s, size_of (with_size d bytes) = Ok s -> feqb s min_mb = true ->
     contributes strptime local_epoch now days_stale min_mb include_published
       (with_size d bytes) []) /\
  (forall s', size_of (with_size d (bytes + 1)) = Ok s' ->
     contributes strptime local_epoch now days_stale min_mb include_published
       (with_size d (bytes + 1))
       (if fltb min_mb s' then [StaleApp name id s' t] else [])).
Proof.
  intros Hth (p & Hp & Hin) (Hrt & Hlt) Hname Hid.
  assert (Hpub : forall b, passes_publication include_published (with_size d b)).
  { intros b. exists p. by rewrite published_of_with_size. }
  assert (Hstale : forall b, passes_staleness strptime local_epoch th (with_size d b) t).
  { intros b. split; [by rewrite reload_time_of_with_size | exact Hlt]. }
  split.
  - intros s Hs Heq. apply (contributes_body _ _ _ _ _ _ _ _ _ Hth).
    apply (body_small _ _ _ _ _ _ _ t s); auto. by apply feqb_not_fltb.
  - intros s' Hs'. apply (contributes_body _ _ _ _ _ _ _ _ _ Hth).
    destruct (fltb min_mb s') eqn:Hm.
    + apply (body_accepted _ _ _ _ _ [] _ (StaleApp name id s' t)).
      split; [apply Hpub|]. split; [apply Hstale|]. split; [by split|].
      cbn [app_name app_id]. by rewrite !getitem_with_size_ne.
    + by apply (body_small _ _ _ _ _ _ _ t s').
Qed.

Lemma size_floor_boundary_witness :
  contributes Sample.strptime unix_epoch Sample.t_2021 180 Sample.f1 false
    (with_size (Sample.meta "A" "1" (PBool false) None) (1024 * 1024)) [] /\
  contributes Sample.strptime unix_epoch Sample.t_2021 180 Sample.f1 false
    (with_size (Sample.meta "A" "1" (PBool false) None) (1024 * 1024 + 1)) [].
Proof.
  destruct (size_floor_boundary Sample.strptime unix_epoch Sample.t_2021 180
              Sample.f1 false (Sample.meta "A" "1" (PBool false) None)
              (1024 * 1024) (Sample.t_2021 - 180 * us_per_day) unix_epoch
              (PStr "A") (PStr "1")) as (Hat & Habove).
  - vm_compute. reflexivity.
  - exists (PBool false). split; vm_compute; reflexivity.
  - split; vm_compute; reflexivity.
  - vm_compute. reflexivity.
  - vm_compute. reflexivity.
  - split.
    + apply (Hat Sample.f1); vm_compute; reflexivity.
    + apply (Habove Sample.f1). vm_compute. reflexivity.
Defined.

(** C5 fails as stated: with [min_mb = 1], an artifact of 1048576 bytes has
    the size 1.0 and is dropped, and so is the artifact of 1048577 bytes,
    whose size rounds to 1.0 as well. *)
Lemma size_floor_counterexample :
  size_of (Sample.doc "A" "1" (PBool false) 1048576 None) = Ok Sample.f1 /\
  stale_apps Sample.strptime unix_epoch Sample.t_2021
    [Sample.doc "A" "1" (PBool false) 1048576 None] 180 Sample.f1 false = Ok [] /\
  size_of (Sample.doc "A" "1" (PBool false) (1048576 + 1) None) = Ok Sample.f1 /\
  stale_apps Sample.strptime unix_epoch Sample.t_2021
    [Sample.doc "A" "1" (PBool false) (1048576 + 1) None] 180 Sample.f1 false = Ok [] /\
  stale_apps Sample.strptime unix_epoch Sample.t_2021
    [Sample.doc "A" "1" (PBool false) (2 * 1048576) None] 180 Sample.f1 false
  = Ok [StaleApp (PStr "A") (PStr "1") Sample.f2 unix_epoch].
Proof. repeat split; vm_compute; reflexivity. Qed.

(** On a boolean flag the membership test of line 73 is the documented
    filter: unpublished, or published documents included. *)
Lemma publication_filter_boolean (published include_published : bool) :
  in_bools (PBool published) false include_published
  = negb published || include_published.
Proof. by destruct published, include_published. Qed.

(** C6.  The specification asks that every published value pass the
    publication filter when [include_published] is set.  The code does not: the string
    ["true"], the integer 2 and [None] equal neither [False] nor [True], so
    the test [published in (False, include_published)] fails on them and the
    artifact is dropped although published documents are included; the same
    artifact with the boolean [True] is retained. *)
Theorem publication_filter_non_boolean :
  in_bools (PStr "true") false true = false /\
  in_bools (PInt 2) false true = false /\
  in_bools PNone false true = false /\
  stale_apps Sample.strptime unix_epoch (Sample.t_2021 + 200 * us_per_day)
    [Sample.doc "A" "1" (PStr "true") (2 * 1024 * 1024) (Some (PStr Sample.ts_2021))]
    180 Sample.f1 true = Ok [] /\
  stale_apps Sample.strptime unix_epoch (Sample.t_2021 + 200 * us_per_day)
    [Sample.doc "A" "1" (PBool true) (2 * 1024 * 1024) (Some (PStr Sample.ts_2021))]
    180 Sample.f1 true
  = Ok [StaleApp (PStr "A") (PStr "1") Sample.f2 Sample.t_2021].
Proof. repeat split; vm_compute; reflexivity. Qed.

(** C10, as the code has it.  A reload timestamp that is present but falsy,
    the empty string for one, is never handed to the parser: whatever the
    parser would do with it, and even if the parser rejects every text, the
    artifact gets the epoch as its reload time, and the evaluation of any
    catalog is the one of the same catalog with the field removed from the
    artifact.  The epoch is then compared with the threshold like any other
    reload time: for a policy whose other tests the artifact passes and
    whose threshold [now - days_stale] days is a valid datetime, the
    artifact is retained, with the epoch as its [last_reload], when the
    epoch lies strictly before the threshold, and dropped by the staleness
    test when the threshold is at or before the epoch. *)
Theorem falsy_timestamp_is_missing strptime local_epoch
    (d : gmap string pyval) v :
  d !! "qLastReloadTime" = Some v ->
  truthy v = false ->
  reload_time_of strptime local_epoch (PDict d) = Ok local_epoch /\
  reload_time_of (fun _ => None) local_epoch (PDict d) = Ok local_epoch /\
  (forall now pre post days_stale min_mb include_published,
     stale_apps strptime local_epoch now (pre ++ PDict d :: post)
       days_stale min_mb include_published
     = stale_apps strptime local_epoch now
         (pre ++ PDict (delete "qLastReloadTime" d) :: post)
         days_stale min_mb include_published) /\
  (forall now days_stale min_mb include_published name id size,
     0 <= days_stale <= 999999999 ->
     datetime_ok (now - days_stale * us_per_day) ->
     passes_publication include_published (PDict d) ->
     passes_size min_mb (PDict d) size ->
     getitem (PDict d) "qDocName" = Ok name ->
     getitem (PDict d) "qDocId" = Ok id ->
     (local_epoch < now - days_stale * us_per_day ->
      contributes strptime local_epoch now days_stale min_mb include_published
        (PDict d) [StaleApp name id size local_epoch]) /\
     (now - days_stale * us_per_day <= local_epoch ->
      contributes strptime local_epoch now days_stale min_mb include_published
        (PDict d) [])).
Proof.
  intros Hd Hv.
  pose proof (reload_time_of_falsy strptime local_epoch d v Hd Hv) as Hrt.
  assert (Hrt' : reload_time_of strptime local_epoch
                   (PDict (delete "qLastReloadTime" d)) = Ok local_epoch).
  { apply reload_time_of_missing. apply lookup_delete_eq. }
  assert (Hget : forall k, k ≠ "qLastReloadTime" ->
             getitem (PDict (delete "qLastReloadTime" d)) k = getitem (PDict d) k).
  { intros k Hk. by apply getitem_delete_ne. }
  assert (Hsz : size_of (PDict (delete "qLastReloadTime" d)) = size_of (PDict d)).
  { unfold size_of. by rewrite Hget. }
  assert (Hbody : forall th m ip acc,
             stale_apps_body strptime local_epoch th m ip acc (PDict d)
             = stale_apps_body strptime local_epoch th m ip acc
                 (PDict (delete "qLastReloadTime" d))).
  { intros. unfold stale_apps_body. by rewrite !Hget, Hsz, Hrt, Hrt'. }
  split; [exact Hrt|]. split; [by apply (reload_time_of_falsy _ _ d v)|].
  split.
  - intros now pre post days m ip.
    rewrite !stale_apps_threshold.
    destruct (threshold_of now days) as [th|e]; [|reflexivity].
    rewrite !bind_Ok, !loop_app.
    destruct (stale_apps_loop strptime local_epoch th m ip pre []) as [acc|e];
      [|reflexivity].
    rewrite !bind_Ok. cbn [stale_apps_loop]. by rewrite Hbody.
  - intros now days m ip name id size Hdays Hok Hpub Hsize Hname Hid.
    pose proof (threshold_of_intro now days Hdays Hok) as Hth.
    split; intros Hcmp.
    + apply (contributes_body _ _ _ _ _ _ _ _ _ Hth).
      apply (body_accepted _ _ _ _ _ [] _ (StaleApp name id size local_epoch)).
      repeat split; simpl; auto; apply Hsize.
    + apply (contributes_body _ _ _ _ _ _ _ _ _ Hth).
      by apply (body_fresh _ _ _ _ _ _ _ local_epoch).
Qed.

Lemma falsy_timestamp_is_missing_witness :
  reload_time_of (fun _ => None) unix_epoch
    (Sample.doc "A" "1" (PBool false) (2 * 1024 * 1024) (Some (PStr "")))
  = Ok unix_epoch /\
  stale_apps Sample.strptime unix_epoch Sample.t_2021
    ([] ++ Sample.doc "A" "1" (PBool false) (2 * 1024 * 1024) (Some (PStr "")) :: [])
    180 Sample.f1 false
  = stale_apps Sample.strptime unix_epoch Sample.t_2021
      ([] ++ PDict (delete "qLastReloadTime"
                      (<["qFileSize" := PInt (2 * 1024 * 1024)]>
                         (Sample.meta "A" "1" (PBool false) (Some (PStr ""))))) :: [])
      180 Sample.f1 false /\
  contributes Sample.strptime unix_epoch Sample.t_2021 180 Sample.f1 false
    (Sample.doc "A" "1" (PBool false) (2 * 1024 * 1024) (Some (PStr "")))
    [StaleApp (PStr "A") (PStr "1") Sample.f2 unix_epoch] /\
  contributes Sample.strptime unix_epoch Sample.t_2021 20000 Sample.f1 false
    (Sample.doc "A" "1" (PBool false) (2 * 1024 * 1024) (Some (PStr "")))
    [].
Proof.
  destruct (falsy_timestamp_is_missing Sample.strptime unix_epoch
              (<["qFileSize" := PInt (2 * 1024 * 1024)]>
                 (Sample.meta "A" "1" (PBool false) (Some (PStr ""))))
              (PStr "")) as (_ & Hnone & Hsame & Hcmp).
  - vm_compute. reflexivity.
  - reflexivity.
  - split; [exact Hnone|]. split; [apply Hsame|]. split.
    + apply (Hcmp Sample.t_2021 180 Sample.f1 false (PStr "A") (PStr "1") Sample.f2).
      * lia.
      * vm_compute. split; discriminate.
      * exists (PBool false). split; vm_compute; reflexivity.
      * split; vm_compute; reflexivity.
      * vm_compute. reflexivity.
      * vm_compute. reflexivity.
      * vm_compute. reflexivity.
    + apply (Hcmp Sample.t_2021 20000 Sample.f1 false (PStr "A") (PStr "1") Sample.f2).
      * lia.
      * vm_compute. split; discriminate.
      * exists (PBool false). split; vm_compute; reflexivity.
      * split; vm_compute; reflexivity.
      * vm_compute. reflexivity.
      * vm_compute. reflexivity.
      * vm_compute. discriminate.
Defined.

(** C10 fails as stated: on 2021-01-01 an unpublished 2 MiB artifact whose
    timestamp is the empty string is retained with [days_stale = 180], the
    epoch being its [last_reload], and dropped with [days_stale = 20000],
    the threshold then lying in 1966: it is not stale whatever the policy.
    A parser that rejects the empty string is not consulted. *)
Lemma falsy_timestamp_counterexample :
  Sample.strptime "" = None /\
  stale_apps Sample.strptime unix_epoch Sample.t_2021
    [Sample.doc "A" "1" (PBool false) (2 * 1024 * 1024) (Some (PStr ""))]
    180 Sample.f1 false
  = Ok [StaleApp (PStr "A") (PStr "1") Sample.f2 unix_epoch] /\
  0 <= 20000 /\
  stale_apps Sample.strptime unix_epoch Sample.t_2021
    [Sample.doc "A" "1" (PBool false) (2 * 1024 * 1024) (Some (PStr ""))]
    20000 Sample.f1 false
  = Ok [].
Proof.
  split; [|split; [|split]];
    [vm_compute; reflexivity.. | lia | vm_compute; reflexivity].
Qed.

(* ===================================================================== *)
(** * Traces                                                              *)
(* ===================================================================== *)

Lemma opened_from_app n tr evs :
  opened_from n (tr ++ evs)
  = opened_from n tr ++ opened_from (n + length tr) evs.
Proof.
  revert n. induction tr as [|e tr IH]; intros n; simpl.
  - by rewrite Nat.add_0_r.
  - replace (n + S (length tr))%nat with (S n + length tr)%nat by lia.
    destruct e as [h [|]| | | |]; simpl; by rewrite IH.
Qed.

Lemma opened_app tr evs :
  opened (tr ++ evs) = opened tr ++ opened_from (length tr) evs.
Proof. apply opened_from_app. Qed.

Lemma closed_app tr evs : closed (tr ++ evs) = closed tr ++ closed evs.
Proof.
  induction tr as [|e tr IH]; simpl; [done|]. destruct e; simpl; by rewrite IH.
Qed.

Lemma sent_app tr evs : sent (tr ++ evs) = sent tr ++ sent evs.
Proof.
  induction tr as [|e tr IH]; simpl; [done|]. destruct e; simpl; by rewrite IH.
Qed.

Lemma printed_app tr evs : printed (tr ++ evs) = printed tr ++ printed evs.
Proof.
  induction tr as [|e tr IH]; simpl; [done|]. destruct e; simpl; by rewrite IH.
Qed.

Lemma dialled_app tr evs : dialled (tr ++ evs) = dialled tr ++ dialled evs.
Proof.
  induction tr as [|e tr IH]; simpl; [done|]. destruct e; simpl; by rewrite IH.
Qed.

Lemma requested_app tr evs :
  requested (tr ++ evs) = requested tr ++ requested evs.
Proof. unfold requested. by rewrite sent_app, omap_app. Qed.

(** Connections are named by positions of the trace. *)
Lemma opened_from_lt n tr c :
  c ∈ opened_from n tr -> (n <= c < n + length tr)%nat.
Proof.
  revert n. induction tr as [|e tr IH]; intros n; simpl.
  - by intros ?%elem_of_nil.
  - assert (Hrec : c ∈ opened_from (S n) tr -> (n <= c < n + S (length tr))%nat).
    { intros H%IH. lia. }
    destruct e as [h [|]| | | |]; simpl; auto.
    intros [->|H]%elem_of_cons; [lia|auto].
Qed.

(* ===================================================================== *)
(** * The reclamation driver                                              *)
(* ===================================================================== *)

Lemma filter_agree {A} (P Q : A -> Prop) `{!forall x, Decision (P x)}
    `{!forall x, Decision (Q x)} (l : list A) :
  (forall x, x ∈ l -> P x <-> Q x) -> filter P l = filter Q l.
Proof.
  induction l as [|x l IH]; intros Hagree; [reflexivity|].
  rewrite !filter_cons, IH by (intros y Hy; apply Hagree; by right).
  pose proof (Hagree x ltac:(by left)) as Hx.
  destruct (decide (P x)), (decide (Q x)); tauto || reflexivity.
Qed.

(** A connection opened and closed after [tr] is not left open. *)
Lemma leaked_closed tr evs :
  opened_from (length tr) evs = [length tr] ->
  closed evs = [length tr] ->
  leaked (tr ++ evs) = leaked tr.
Proof.
  intros Ho Hc. unfold leaked.
  rewrite opened_app, closed_app, Ho, Hc, filter_app.
  rewrite filter_cons_False by (intros Hn; apply Hn; set_solver).
  rewrite filter_nil, app_nil_r. apply filter_agree.
  intros c Hlt%opened_from_lt. set_unfold. intuition lia.
Qed.

Ltac run_io :=
  unfold drop_data_from_app, _connect, _communicate, create_connection,
    ws_recv, ws_send, ws_close, lift, mbind, io_bind, mret, io_ret,
    json_loads.

Ltac leaf :=
  eexists _, _; split; [by rewrite <- ?app_assoc | simpl; auto].

Section DriverFacts.

Variable srv : server.

Lemma io_bind_run {A B} (m : io A) (k : A -> io B) tr :
  (m ≫= k) tr = match m tr with
                | (Ok a, tr') => k a tr'
                | (Raise e, tr') => (Raise e, tr')
                end.
Proof. reflexivity. Qed.

(** Every run of [drop_data_from_app] extends the trace by events among
    which the connection it opened, named by the length of the trace, is
    closed when the function returns, and nothing is closed when it
    raises; it prints nothing. *)
Lemma drop_data_from_app_run host doc_id tr :
  exists evs r,
    drop_data_from_app srv host doc_id tr = (r, tr ++ evs) /\
    printed evs = [] /\
    match r with
    | Ok _ => opened_from (length tr) evs = [length tr] /\
              closed evs = [length tr]
    | Raise _ => closed evs = []
    end.
Proof.
  run_io.
  destruct (accept srv tr host); [|leaf].
  destruct (respond srv _) as [g|]; [|leaf].
  destruct (deliver srv _); [|leaf].
  destruct (respond srv _) as [[response|]|]; [|leaf..].
  destruct (qReturn response "qType") as [qType|e]; [|leaf].
  destruct (eq_str qType "Doc"); [|leaf].
  destruct (qReturn response "qHandle") as [qHandle|e]; [|leaf].
  destruct (deliver srv _); [|leaf].
  destruct (respond srv _) as [[saved|]|]; leaf.
Qed.

End DriverFacts.

(** C7, as the code has it.  The connection that [drop_data_from_app] opens
    is closed on every path on which the function returns: after the
    [OpenDoc] reply when its type is not ['Doc'], after the save exchange
    when it is.  When an exchange raises, the exception leaves the function
    before [websocket.close()], and nothing is closed. *)
Theorem drop_data_from_app_closes srv host doc_id tr :
  let out := drop_data_from_app srv host doc_id tr in
  (is_ok out.1 = true ->
   opened out.2 = opened tr ++ [length tr] /\
   closed out.2 = closed tr ++ [length tr] /\
   leaked out.2 = leaked tr) /\
  (is_ok out.1 = false -> closed out.2 = closed tr).
Proof.
  destruct (drop_data_from_app_run srv host doc_id tr) as (evs & r & -> & _ & H).
  cbn [fst snd]. rewrite opened_app, closed_app.
  destruct r as [response|e]; cbn [is_ok]; split; try discriminate; intros _.
  - destruct H as [Ho Hc]. rewrite (leaked_closed _ _ Ho Hc), Ho, Hc. done.
  - by rewrite H, app_nil_r.
Qed.

Lemma drop_data_from_app_closes_witness :
  opened (drop_data_from_app (Sample.answering Sample.null_reply) "qs" (PStr "2") []).2
  = opened [] ++ [0%nat] /\
  closed (drop_data_from_app (Sample.answering Sample.null_reply) "qs" (PStr "2") []).2
  = closed [] ++ [0%nat] /\
  leaked (drop_data_from_app (Sample.answering Sample.null_reply) "qs" (PStr "2") []).2
  = leaked [].
Proof.
  apply (drop_data_from_app_closes (Sample.answering Sample.null_reply) "qs"
           (PStr "2") []).
  vm_compute. reflexivity.
Defined.

(** C7 fails as stated: when the reply to [OpenDoc] is an error object, which
    has no ['result'], line 119 raises [KeyError] and the connection numbered
    0 stays open. *)
Lemma drop_data_from_app_leak_counterexample :
  (drop_data_from_app (Sample.answering Sample.error_reply) "qs" (PStr "2") []).1
  = Raise KeyError /\
  leaked (drop_data_from_app (Sample.answering Sample.error_reply) "qs" (PStr "2") []).2
  = [0%nat] /\
  closed (drop_data_from_app (Sample.answering Sample.error_reply) "qs" (PStr "2") []).2
  = [].
Proof. repeat split; vm_compute; reflexivity. Qed.

(** C9.  In every attempt whose [OpenDoc] reply announces a document (type
    ['Doc']) with a handle, exactly one message follows the [OpenDoc] message
    on the wire: a [DoSave] whose handle is the one of that reply and whose
    file name is empty.  When the reply announces another type, nothing
    follows the [OpenDoc] message. *)
Theorem save_follows_open srv host doc_id tr response qType :
  opens srv host doc_id tr response ->
  qReturn response "qType" = Ok qType ->
  let out := drop_data_from_app srv host doc_id tr in
  (eq_str qType "Doc" = true ->
   forall qHandle, qReturn response "qHandle" = Ok qHandle ->
     sent out.2 = sent tr ++ [OpenDoc_msg doc_id; DoSave_msg qHandle] /\
     getitem (DoSave_msg qHandle) "method" = Ok (PStr "DoSave") /\
     getitem (DoSave_msg qHandle) "handle" = Ok qHandle /\
     (params ← getitem (DoSave_msg qHandle) "params"; getitem params "qFileName")
     = Ok (PStr "")) /\
  (eq_str qType "Doc" = false ->
   sent out.2 = sent tr ++ [OpenDoc_msg doc_id]).
Proof.
  intros (g & Ha & Hg & Hd & Hr) Hty. cbv zeta in *.
  run_io. rewrite Ha, Hg, Hd, Hr, Hty. clear Ha Hg Hd Hr Hty.
  split.
  - intros -> h ->. split; [|repeat split; vm_compute; reflexivity].
    destruct (deliver srv _); [destruct (respond srv _) as [[saved|]|]|];
      cbn [snd]; rewrite <- ?app_assoc, sent_app; reflexivity.
  - intros ->. cbn [snd]. rewrite <- ?app_assoc, sent_app. reflexivity.
Qed.

Lemma save_follows_open_witness :
  sent (drop_data_from_app (Sample.answering Sample.null_reply) "qs" (PStr "1") []).2
  = sent [] ++ [OpenDoc_msg (PStr "1"); DoSave_msg (PInt 1)] /\
  sent (drop_data_from_app (Sample.answering Sample.null_reply) "qs" (PStr "2") []).2
  = sent [] ++ [OpenDoc_msg (PStr "2")].
Proof.
  split.
  - apply (save_follows_open (Sample.answering Sample.null_reply) "qs" (PStr "1") []
             (Sample.opened_reply (PInt 1)) (PStr "Doc")).
    + exists (Some Sample.greeting). repeat split; vm_compute; reflexivity.
    + vm_compute. reflexivity.
    + reflexivity.
    + vm_compute. reflexivity.
  - apply (save_follows_open (Sample.answering Sample.null_reply) "qs" (PStr "2") []
             Sample.null_reply PNone).
    + exists (Some Sample.greeting). repeat split; vm_compute; reflexivity.
    + vm_compute. reflexivity.
    + reflexivity.
Defined.

(** ** The truncation loop *)

(** An attempt whose [OpenDoc] reply announces a type other than ['Doc']
    returns that reply. *)
Lemma open_failure_returns srv host doc_id tr response qType :
  opens srv host doc_id tr response ->
  qReturn response "qType" = Ok qType ->
  eq_str qType "Doc" = false ->
  (drop_data_from_app srv host doc_id tr).1 = Ok response.
Proof.
  intros (g & Ha & Hg & Hd & Hr) Hty Hne. cbv zeta in *.
  run_io. by rewrite Ha, Hg, Hd, Hr, Hty, Hne.
Qed.

(** What the messages of an attempt ask for. *)
Lemma doc_requested_OpenDoc doc_id :
  doc_requested (OpenDoc_msg doc_id) = Some doc_id.
Proof. vm_compute. reflexivity. Qed.

Lemma doc_requested_DoSave handle : doc_requested (DoSave_msg handle) = None.
Proof. vm_compute. reflexivity. Qed.

Lemma progress_lines_app total l1 l2 : forall i,
  progress_lines total i (l1 ++ l2)
  = progress_lines total i l1 ++ progress_lines total (i + length l1) l2.
Proof.
  induction l1 as [|x l1 IH]; intros i; simpl.
  - by rewrite Nat.add_0_r.
  - rewrite IH. by replace (S i + length l1)%nat with (i + S (length l1))%nat by lia.
Qed.

Ltac attempt_events :=
  eexists _, _; split; [by rewrite <- ?app_assoc|];
  unfold requested; cbn [printed dialled sent omap list_omap];
  rewrite ?doc_requested_OpenDoc, ?doc_requested_DoSave;
  cbn [omap list_omap]; auto.

(** Every run of [drop_data_from_app] dials the host once and prints
    nothing; when it returns it has asked for the document, and when it
    raises it has asked for the document or for nothing. *)
Lemma drop_data_from_app_attempt srv host doc_id tr :
  exists evs r,
    drop_data_from_app srv host doc_id tr = (r, tr ++ evs) /\
    printed evs = [] /\
    dialled evs = [host] /\
    match r with
    | Ok _ => requested evs = [doc_id]
    | Raise _ => requested evs = [] \/ requested evs = [doc_id]
    end.
Proof.
  run_io.
  destruct (accept srv tr host); [|attempt_events].
  destruct (respond srv _) as [g|]; [|attempt_events].
  destruct (deliver srv _); [|attempt_events].
  destruct (respond srv _) as [[response|]|]; [|attempt_events..].
  destruct (qReturn response "qType") as [qType|e]; [|attempt_events].
  destruct (eq_str qType "Doc"); [|attempt_events].
  destruct (qReturn response "qHandle") as [qHandle|e]; [|attempt_events].
  destruct (deliver srv _); [|attempt_events].
  destruct (respond srv _) as [[saved|]|]; attempt_events.
Qed.

(** One turn of the loop: the line, then the attempt, then the rest. *)
Lemma truncate_loop_cons srv host total i _id rest tr :
  truncate_loop srv host total i (_id :: rest) tr
  = match drop_data_from_app srv host _id
            (tr ++ [Print (progress_line _id i total)]) with
    | (Ok _, tr') => truncate_loop srv host total (S i) rest tr'
    | (Raise e, tr') => (Raise e, tr')
    end.
Proof. reflexivity. Qed.

(** The loop over a list in two parts runs the second part where the first
    one ended, unless the first one raised. *)
Lemma truncate_loop_app srv host total pre post : forall i tr,
  truncate_loop srv host total i (pre ++ post) tr
  = match truncate_loop srv host total i pre tr with
    | (Ok _, tr') => truncate_loop srv host total (i + length pre) post tr'
    | (Raise e, tr') => (Raise e, tr')
    end.
Proof.
  induction pre as [|_id pre IH]; intros i tr.
  - simpl. by rewrite Nat.add_0_r.
  - rewrite <- app_comm_cons, !truncate_loop_cons.
    destruct (drop_data_from_app srv host _id _) as [[response|e] tr'];
      [|reflexivity].
    rewrite IH. simpl length.
    by replace (S i + length pre)%nat with (i + S (length pre))%nat by lia.
Qed.

(** The loop announces, dials and asks for a prefix of the list: the whole
    list when it returns; when it raises, the prefix ends with the
    identifier whose attempt raised, and the trace ends where that attempt
    ended. *)
Lemma truncate_loop_attempts srv host total doc_ids : forall i tr,
  exists k evs r,
    truncate_loop srv host total i doc_ids tr = (r, tr ++ evs) /\
    (k <= length doc_ids)%nat /\
    printed evs = progress_lines total i (take k doc_ids) /\
    dialled evs = replicate k host /\
    match r with
    | Ok _ => k = length doc_ids /\ requested evs = doc_ids
    | Raise e =>
        (0 < k)%nat /\
        (requested evs = take (pred k) doc_ids \/
         requested evs = take k doc_ids) /\
        exists _id mid,
          doc_ids !! pred k = Some _id /\
          drop_data_from_app srv host _id (tr ++ mid) = (Raise e, tr ++ evs)
    end.
Proof.
  induction doc_ids as [|_id rest IH]; intros i tr.
  - exists 0%nat, [], (Ok tt). rewrite app_nil_r. repeat split; auto.
  - rewrite truncate_loop_cons.
    destruct (drop_data_from_app_attempt srv host _id
                (tr ++ [Print (progress_line _id i total)]))
      as (evs1 & r1 & Hrun & Hquiet & Hdial & Hreq).
    rewrite Hrun. destruct r1 as [response|e].
    + destruct (IH (S i) ((tr ++ [Print (progress_line _id i total)]) ++ evs1))
        as (k & evs2 & r & -> & Hk & Hlines & Hdials & Hr).
      exists (S k), ([Print (progress_line _id i total)] ++ evs1 ++ evs2), r.
      split; [by rewrite <- !app_assoc|]. split; [simpl; lia|].
      split; [by rewrite !printed_app, Hquiet, Hlines|].
      split; [by rewrite !dialled_app, Hdial, Hdials|].
      rewrite !requested_app, Hreq. change (requested [Print _]) with (@nil pyval).
      destruct r as [[]|e].
      * destruct Hr as [-> ->]. by split.
      * destruct Hr as (Hpos & Hasked & x & mid & Hx & Hlast).
        split; [lia|]. destruct k as [|k]; [lia|]. cbn [pred] in *.
        split; [destruct Hasked as [-> | ->]; [left | right]; reflexivity|].
        exists x, ([Print (progress_line _id i total)] ++ evs1 ++ mid).
        split; [exact Hx|]. by rewrite !app_assoc, Hlast, <- !app_assoc.
    + exists 1%nat, ([Print (progress_line _id i total)] ++ evs1), (Raise e).
      split; [by rewrite <- !app_assoc|]. split; [simpl; lia|].
      split; [by rewrite printed_app, Hquiet|].
      split; [by rewrite dialled_app, Hdial|].
      split; [lia|]. rewrite requested_app.
      change (requested [Print _]) with (@nil pyval).
      split; [destruct Hreq as [-> | ->]; [left | right]; reflexivity|].
      exists _id, [Print (progress_line _id i total)].
      split; [reflexivity|]. by rewrite Hrun, <- !app_assoc.
Qed.

(** C8, as the code has it.  A failure that [drop_data_from_app] reports by
    returning, an [OpenDoc] reply whose type is not ['Doc'], does not raise.
    As long as the attempts return, whatever they report, the loop returns
    after it has attempted every identifier, in order: it has printed one
    line per identifier, dialled the host once per identifier, and the
    documents asked for by the [OpenDoc] messages it handed to the sockets
    are the identifiers of the list, in order.  When the attempts on the
    identifiers [pre] have returned and the attempt on the next identifier
    raises, the loop raises that exception and ends where that attempt
    ended: the identifiers [post] that follow are neither announced, nor
    dialled for, nor asked for. *)
Theorem truncation_continues srv host :
  (forall doc_id tr response qType,
      opens srv host doc_id tr response ->
      qReturn response "qType" = Ok qType ->
      eq_str qType "Doc" = false ->
      returns (drop_data_from_app srv host doc_id) tr) /\
  (forall total i doc_ids tr,
      (forall _id evs, _id ∈ doc_ids ->
         returns (drop_data_from_app srv host _id) (tr ++ evs)) ->
      let out := truncate_loop srv host total i doc_ids tr in
      out.1 = Ok tt /\
      printed out.2 = printed tr ++ progress_lines total i doc_ids /\
      dialled out.2 = dialled tr ++ replicate (length doc_ids) host /\
      requested out.2 = requested tr ++ doc_ids) /\
  (forall total i pre _id post tr tr1 e,
      truncate_loop srv host total i pre tr = (Ok tt, tr1) ->
      let attempt :=
        drop_data_from_app srv host _id
          (tr1 ++ [Print (progress_line _id (i + length pre) total)]) in
      attempt.1 = Raise e ->
      let out := truncate_loop srv host total i (pre ++ _id :: post) tr in
      out.1 = Raise e /\
      out.2 = attempt.2 /\
      printed out.2 = printed tr ++ progress_lines total i (pre ++ [_id]) /\
      dialled out.2 = dialled tr ++ replicate (S (length pre)) host /\
      (requested out.2 = requested tr ++ pre \/
       requested out.2 = requested tr ++ pre ++ [_id])).
Proof.
  split; [|split].
  - intros doc_id tr response qType Hopen Hty Hne. unfold returns.
    by rewrite (open_failure_returns _ _ _ _ _ _ Hopen Hty Hne).
  - intros total i doc_ids tr Hret.
    destruct (truncate_loop_attempts srv host total doc_ids i tr)
      as (k & evs & r & -> & Hk & Hlines & Hdials & Hr).
    cbn [fst snd]. rewrite printed_app, dialled_app, requested_app.
    destruct r as [[]|e].
    + destruct Hr as [-> ->]. by rewrite Hlines, Hdials, firstn_all.
    + destruct Hr as (_ & _ & x & mid & Hx & Hlast).
      apply list_elem_of_lookup_2 in Hx.
      specialize (Hret x mid Hx). unfold returns in Hret.
      rewrite Hlast in Hret. discriminate.
  - intros total i pre _id post tr tr1 e Hpre attempt Hraise out.
    destruct (truncate_loop_attempts srv host total pre i tr)
      as (k & evs & r & Hrun & _ & Hlines & Hdials & Hr).
    rewrite Hpre in Hrun. injection Hrun as <- ->.
    destruct Hr as [-> Hreq]. rewrite firstn_all in Hlines.
    destruct (drop_data_from_app_attempt srv host _id
                ((tr ++ evs) ++ [Print (progress_line _id (i + length pre) total)]))
      as (evs1 & r1 & Hatt & Hquiet & Hdial & Hasked).
    assert (Hout : out = (Raise e, attempt.2)).
    { unfold out. rewrite truncate_loop_app, Hpre, truncate_loop_cons.
      fold attempt. destruct attempt as [[response|e'] tr2]; [discriminate|].
      cbn [fst snd] in *. by injection Hraise as ->. }
    rewrite Hout. subst attempt. clear Hout out. rewrite Hatt in *.
    cbn [fst snd] in *. subst r1.
    split; [reflexivity|]. split; [reflexivity|].
    rewrite !printed_app, !dialled_app, !requested_app, progress_lines_app.
    change (requested [Print _]) with (@nil pyval).
    rewrite Hlines, Hdials, Hquiet, Hdial, Hreq, !app_nil_r.
    split; [by rewrite <- app_assoc|].
    split; [by rewrite replicate_S_end, <- app_assoc|].
    destruct Hasked as [-> | ->]; [left | right];
      by rewrite ?app_nil_r, <- ?app_assoc.
Qed.

(** The sample server reads the request off the last frame it was sent. *)
Lemma asked_OpenDoc doc_id : Sample.asked (OpenDoc_msg doc_id) = Some doc_id.
Proof. vm_compute. reflexivity. Qed.

Lemma asked_DoSave handle : Sample.asked (DoSave_msg handle) = None.
Proof. vm_compute. reflexivity. Qed.

Lemma qReturn_opened_type handle :
  qReturn (Sample.opened_reply handle) "qType" = Ok (PStr "Doc").
Proof. vm_compute. reflexivity. Qed.

Lemma qReturn_opened_handle handle :
  qReturn (Sample.opened_reply handle) "qHandle" = Ok handle.
Proof. vm_compute. reflexivity. Qed.

Ltac answer :=
  repeat (cbn [accept deliver respond Sample.answering fst snd is_ok];
          rewrite ?last_snoc, ?asked_OpenDoc, ?asked_DoSave,
            ?qReturn_opened_type, ?qReturn_opened_handle;
          change (eq_str (PStr "Doc") "Doc") with true).

(** Whatever happened before, the sample server lets the attempts on the
    documents ["1"], ["2"] and ["3"] return when its answer for ["2"] has a
    type other than ['Doc']. *)
Lemma answering_returns bad qType _id tr :
  qReturn bad "qType" = Ok qType -> eq_str qType "Doc" = false ->
  _id ∈ [PStr "1"; PStr "2"; PStr "3"] ->
  returns (drop_data_from_app (Sample.answering bad) "qs" _id) tr.
Proof.
  intros Hty Hne Hin. unfold returns.
  repeat (apply elem_of_cons in Hin as [->|Hin]); [| | |by apply elem_of_nil in Hin].
  - run_io. answer. reflexivity.
  - run_io. answer. rewrite Hty, Hne. reflexivity.
  - run_io. answer. reflexivity.
Qed.

Lemma truncation_continues_witness :
  returns (drop_data_from_app (Sample.answering Sample.null_reply) "qs" (PStr "2")) [] /\
  ((truncate_loop (Sample.answering Sample.null_reply) "qs" 3 0
      [PStr "1"; PStr "2"; PStr "3"] []).1 = Ok tt /\
   printed (truncate_loop (Sample.answering Sample.null_reply) "qs" 3 0
              [PStr "1"; PStr "2"; PStr "3"] []).2
   = printed [] ++ progress_lines 3 0 [PStr "1"; PStr "2"; PStr "3"] /\
   dialled (truncate_loop (Sample.answering Sample.null_reply) "qs" 3 0
              [PStr "1"; PStr "2"; PStr "3"] []).2
   = dialled [] ++ replicate 3 "qs" /\
   requested (truncate_loop (Sample.answering Sample.null_reply) "qs" 3 0
                [PStr "1"; PStr "2"; PStr "3"] []).2
   = requested [] ++ [PStr "1"; PStr "2"; PStr "3"]) /\
  ((truncate_loop (Sample.answering Sample.error_reply) "qs" 3 0
      ([PStr "1"] ++ PStr "2" :: [PStr "3"]) []).1 = Raise KeyError /\
   printed (truncate_loop (Sample.answering Sample.error_reply) "qs" 3 0
              ([PStr "1"] ++ PStr "2" :: [PStr "3"]) []).2
   = printed [] ++ progress_lines 3 0 ([PStr "1"] ++ [PStr "2"]) /\
   dialled (truncate_loop (Sample.answering Sample.error_reply) "qs" 3 0
              ([PStr "1"] ++ PStr "2" :: [PStr "3"]) []).2
   = dialled [] ++ replicate 2 "qs").
Proof.
  destruct (truncation_continues (Sample.answering Sample.null_reply) "qs")
    as (Hfail & Hloop & _).
  destruct (truncation_continues (Sample.answering Sample.error_reply) "qs")
    as (_ & _ & Habort).
  split; [|split].
  - apply (Hfail (PStr "2") [] Sample.null_reply PNone).
    + exists (Some Sample.greeting). repeat split; vm_compute; reflexivity.
    + vm_compute. reflexivity.
    + reflexivity.
  - apply (Hloop 3%nat 0%nat [PStr "1"; PStr "2"; PStr "3"] []).
    intros _id evs Hin.
    apply (answering_returns Sample.null_reply PNone); [vm_compute| |]; done.
  - destruct (Habort 3%nat 0%nat [PStr "1"] (PStr "2") [PStr "3"] []
                (truncate_loop (Sample.answering Sample.error_reply) "qs" 3 0
                   [PStr "1"] []).2 KeyError)
      as (Hraise & _ & Hlines & Hdials & _).
    + vm_compute. reflexivity.
    + vm_compute. reflexivity.
    + split; [exact Hraise|]. split; [exact Hlines | exact Hdials].
Defined.

(** C8 fails as stated: of three identifiers, the second is answered by an
    error object; [drop_data_from_app] raises [KeyError], the loop ends, and
    the third identifier is neither announced nor asked for. *)
Lemma truncation_aborts_counterexample :
  (truncate_loop (Sample.answering Sample.error_reply) "qs" 3 0
     [PStr "1"; PStr "2"; PStr "3"] []).1 = Raise KeyError /\
  printed (truncate_loop (Sample.answering Sample.error_reply) "qs" 3 0
             [PStr "1"; PStr "2"; PStr "3"] []).2
  = progress_lines 3 0 [PStr "1"; PStr "2"] /\
  sent (truncate_loop (Sample.answering Sample.error_reply) "qs" 3 0
          [PStr "1"; PStr "2"; PStr "3"] []).2
  = [OpenDoc_msg (PStr "1"); DoSave_msg (PInt 1); OpenDoc_msg (PStr "2")].
Proof. repeat split; vm_compute; reflexivity. Qed.

(* ===================================================================== *)
(** * Further properties of the retention evaluator                       *)
(* ===================================================================== *)

Section EvaluatorMore.

Variable strptime : string -> option datetime.
Variable local_epoch : datetime.

Abbreviation evaluate := (stale_apps strptime local_epoch).
Abbreviation step := (stale_apps_body strptime local_epoch).
Abbreviation iter := (stale_apps_loop strptime local_epoch).
Abbreviation ok_for := (accepted strptime local_epoch).

(** The entries appended come, in order, from distinct positions of the
    list. *)
Lemma loop_selection th m ip app_list acc out :
  iter th m ip app_list acc = Ok out ->
  exists kept new, out = acc ++ new /\ sublist kept app_list /\
                   Forall2 (ok_for th m ip) kept new.
Proof.
  revert acc. induction app_list as [|doc rest IH]; intros acc H;
    cbn [stale_apps_loop] in H.
  - exists [], []. inversion H. by rewrite app_nil_r.
  - inv_bind H. rename x into acc', E into Hbody.
    apply IH in H as (kept & new & -> & Hsub & Hall).
    apply body_inv in Hbody as [->|(c & -> & Hc)].
    + exists kept, new. split; [done|]. split; [by apply sublist_cons|done].
    + exists (doc :: kept), (c :: new). rewrite <- app_assoc.
      split; [done|]. split; [by apply sublist_skip|by constructor].
Qed.

(** No accepted document is passed over. *)
Lemma loop_complete th m ip app_list acc out doc c :
  iter th m ip app_list acc = Ok out ->
  (c ∈ acc -> c ∈ out) /\
  (doc ∈ app_list -> ok_for th m ip doc c -> c ∈ out).
Proof.
  revert acc. induction app_list as [|d rest IH]; intros acc H;
    cbn [stale_apps_loop] in H.
  - inversion H; subst. split; [done|]. by intros ?%elem_of_nil.
  - inv_bind H. rename x into acc', E into Hbody.
    destruct (IH _ H) as [Hkeep Hrest].
    assert (Hacc : forall x, x ∈ acc -> x ∈ acc').
    { intros x Hx.
      apply body_inv in Hbody as [->|(c' & -> & _)]; [done|].
      apply elem_of_app. by left. }
    split; [auto|].
    intros [->|Hin]%elem_of_cons Hc; [|auto].
    rewrite (body_accepted _ _ _ _ _ acc _ _ Hc) in Hbody.
    inversion Hbody; subst. apply Hkeep, elem_of_app. right. by left.
Qed.

(** The first document that raises ends the loop with its exception. *)
Lemma loop_raises th m ip pre doc post acc mid e :
  iter th m ip pre acc = Ok mid ->
  step th m ip [] doc = Raise e ->
  iter th m ip (pre ++ doc :: post) acc = Raise e.
Proof.
  intros Hpre Hdoc. rewrite loop_app, Hpre, bind_Ok.
  cbn [stale_apps_loop]. by rewrite body_acc, Hdoc.
Qed.

(** A document on which an iteration changes nothing can be left out. *)
Lemma loop_skip th m ip pre doc post acc :
  (forall apps, step th m ip apps doc = Ok apps) ->
  iter th m ip (pre ++ doc :: post) acc = iter th m ip (pre ++ post) acc.
Proof.
  intros Hskip. rewrite !loop_app.
  destruct (iter th m ip pre acc) as [mid|e]; [|reflexivity].
  rewrite !bind_Ok. cbn [stale_apps_loop]. by rewrite Hskip.
Qed.

End EvaluatorMore.

(** X1.  [stale_apps] distributes over the concatenation of catalogs: the
    result on [l1 ++ l2] is the result on [l1] followed by the result on
    [l2], and the exception of [l1], else of [l2], when one of them
    raises. *)
Theorem stale_apps_concat strptime local_epoch now l1 l2 days_stale min_mb
    include_published :
  stale_apps strptime local_epoch now (l1 ++ l2) days_stale min_mb include_published
  = (a ← stale_apps strptime local_epoch now l1 days_stale min_mb include_published;
     b ← stale_apps strptime local_epoch now l2 days_stale min_mb include_published;
     Ok (a ++ b)).
Proof.
  rewrite !stale_apps_threshold.
  destruct (threshold_of now days_stale) as [th|e]; [|reflexivity].
  rewrite !bind_Ok, loop_app.
  destruct (stale_apps_loop _ _ th _ _ l1 []) as [a|e]; [|reflexivity].
  rewrite !bind_Ok. apply loop_acc.
Qed.

(** X2.  The result follows the catalog: its entries are those of a
    sub-list of the catalog, in the same order, one entry per retained
    document, each document passing the three tests; so there are never more
    entries than documents. *)
Theorem stale_apps_selection strptime local_epoch now app_list days_stale
    min_mb include_published out :
  stale_apps strptime local_epoch now app_list days_stale min_mb
    include_published = Ok out ->
  (exists kept,
      sublist kept app_list /\
      Forall2 (accepted strptime local_epoch (now - days_stale * us_per_day)
                 min_mb include_published) kept out) /\
  (length out <= length app_list)%nat.
Proof.
  intros H. apply stale_apps_Ok in H as (th & Hth & H).
  apply threshold_of_Ok in Hth as [-> _].
  apply loop_selection in H as (kept & new & -> & Hsub & Hall). simpl.
  split; [by exists kept|].
  rewrite <- (Forall2_length _ _ _ Hall). by apply sublist_length.
Qed.

Lemma stale_apps_selection_witness :
  (exists kept,
      sublist kept (Sample.catalog Sample.ts_2021) /\
      Forall2 (accepted Sample.strptime unix_epoch
                 (Sample.t_2021 + 200 * us_per_day - 180 * us_per_day)
                 Sample.f1 false) kept
        [StaleApp (PStr "A") (PStr "1") Sample.f2 Sample.t_2021]) /\
  (length [StaleApp (PStr "A") (PStr "1") Sample.f2 Sample.t_2021]
   <= length (Sample.catalog Sample.ts_2021))%nat.
Proof.
  apply (stale_apps_selection Sample.strptime unix_epoch
           (Sample.t_2021 + 200 * us_per_day) (Sample.catalog Sample.ts_2021)
           180 Sample.f1 false).
  vm_compute. reflexivity.
Defined.

(** X3.  Nothing that qualifies is missed: when [stale_apps] returns, the
    entry of every document of the catalog that passes the three tests is in
    the result. *)
Theorem stale_apps_complete strptime local_epoch now app_list days_stale
    min_mb include_published out doc c :
  stale_apps strptime local_epoch now app_list days_stale min_mb
    include_published = Ok out ->
  doc ∈ app_list ->
  accepted strptime local_epoch (now - days_stale * us_per_day) min_mb
    include_published doc c ->
  c ∈ out.
Proof.
  intros H Hdoc Hc. apply stale_apps_Ok in H as (th & Hth & H).
  apply threshold_of_Ok in Hth as [-> _].
  by apply (loop_complete _ _ _ _ _ _ _ _ doc c H).
Qed.

Lemma stale_apps_complete_witness :
  StaleApp (PStr "A") (PStr "1") Sample.f2 Sample.t_2021
  ∈ [StaleApp (PStr "A") (PStr "1") Sample.f2 Sample.t_2021].
Proof.
  apply (stale_apps_complete Sample.strptime unix_epoch
           (Sample.t_2021 + 200 * us_per_day) (Sample.catalog Sample.ts_2021)
           180 Sample.f1 false _
           (Sample.doc "A" "1" (PBool false) (2 * 1024 * 1024)
              (Some (PStr Sample.ts_2021)))).
  - vm_compute. reflexivity.
  - by left.
  - split; [exists (PBool false); split; vm_compute; reflexivity|].
    repeat split; vm_compute; reflexivity.
Defined.

(** X4.  A document stopped by the publication test is not looked at any
    further: whatever its timestamp and its size, malformed or missing, the
    evaluation of the catalog is the one of the catalog without it. *)
Theorem published_documents_are_skipped strptime local_epoch now pre doc post
    days_stale min_mb include_published p :
  published_of doc = Ok p ->
  in_bools p false include_published = false ->
  stale_apps strptime local_epoch now (pre ++ doc :: post) days_stale min_mb
    include_published
  = stale_apps strptime local_epoch now (pre ++ post) days_stale min_mb
      include_published.
Proof.
  intros Hp Hin. rewrite !stale_apps_threshold.
  destruct (threshold_of now days_stale) as [th|e]; [|reflexivity].
  rewrite !bind_Ok. apply loop_skip.
  intros apps. by apply (body_unpublished _ _ _ _ _ _ _ p).
Qed.

Lemma published_documents_are_skipped_witness :
  stale_apps Sample.strptime unix_epoch Sample.t_2021
    ([] ++ mkdict [("qMeta", mkdict [("published", PBool true)]);
                   ("qLastReloadTime", PStr "yesterday")] :: [])
    180 Sample.f1 false
  = stale_apps Sample.strptime unix_epoch Sample.t_2021 ([] ++ []) 180
      Sample.f1 false.
Proof.
  apply (published_documents_are_skipped Sample.strptime unix_epoch
           Sample.t_2021 [] _ [] 180 Sample.f1 false (PBool true)).
  - vm_compute. reflexivity.
  - reflexivity.
Defined.

(** X5.  The tests run in order and stop at the first that fails: a document
    that is not stale is dropped without its size being read, and a document
    that is too small without its name and identifier being read. *)
Theorem later_fields_are_not_read strptime local_epoch now pre doc post
    days_stale min_mb include_published t :
  passes_publication include_published doc ->
  reload_time_of strptime local_epoch doc = Ok t ->
  (now - days_stale * us_per_day <= t \/
   exists s, size_of doc = Ok s /\ fltb min_mb s = false) ->
  stale_apps strptime local_epoch now (pre ++ doc :: post) days_stale min_mb
    include_published
  = stale_apps strptime local_epoch now (pre ++ post) days_stale min_mb
      include_published.
Proof.
  intros Hpub Hrt Hwhy. rewrite !stale_apps_threshold.
  destruct (threshold_of now days_stale) as [th|e] eqn:Hth; [|reflexivity].
  apply threshold_of_Ok in Hth as [-> _].
  rewrite !bind_Ok. apply loop_skip. intros apps.
  destruct (Z.lt_ge_cases t (now - days_stale * us_per_day)) as [Hlt|Hge].
  - destruct Hwhy as [Hge|(s & Hs & Hm)]; [lia|].
    by apply (body_small _ _ _ _ _ _ _ t s).
  - by apply (body_fresh _ _ _ _ _ _ _ t).
Qed.

Lemma later_fields_are_not_read_witness :
  stale_apps Sample.strptime unix_epoch Sample.t_2021
    ([] ++ mkdict [("qMeta", mkdict [("published", PBool false)]);
                   ("qLastReloadTime", PStr Sample.ts_2021)] :: [])
    180 Sample.f1 false
  = stale_apps Sample.strptime unix_epoch Sample.t_2021 ([] ++ []) 180
      Sample.f1 false.
Proof.
  apply (later_fields_are_not_read Sample.strptime unix_epoch Sample.t_2021
           [] _ [] 180 Sample.f1 false Sample.t_2021).
  - exists (PBool false). split; vm_compute; reflexivity.
  - vm_compute. reflexivity.
  - left. vm_compute. discriminate.
Defined.

(** X6.  The evaluation stops at the first document that raises: the
    exception is the result of the whole call, and the entries collected
    before it are lost. *)
Theorem stale_apps_first_error strptime local_epoch now pre doc post
    days_stale min_mb include_published a e :
  stale_apps strptime local_epoch now pre days_stale min_mb include_published
  = Ok a ->
  stale_apps strptime local_epoch now [doc] days_stale min_mb include_published
  = Raise e ->
  stale_apps strptime local_epoch now (pre ++ doc :: post) days_stale min_mb
    include_published = Raise e.
Proof.
  intros Hpre Hdoc.
  apply stale_apps_Ok in Hpre as (th & Hth & Hpre).
  rewrite stale_apps_threshold, Hth, bind_Ok in Hdoc |- *.
  cbn [stale_apps_loop] in Hdoc.
  destruct (stale_apps_body strptime local_epoch th min_mb include_published
              [] doc) as [x|e'] eqn:Hbody; [discriminate|].
  inversion Hdoc; subst. by apply (loop_raises _ _ _ _ _ _ _ _ _ a).
Qed.

Lemma stale_apps_first_error_witness :
  stale_apps Sample.strptime unix_epoch (Sample.t_2021 + 200 * us_per_day)
    (Sample.catalog Sample.ts_2021 ++ PNone :: []) 180 Sample.f1 false
  = Raise TypeError.
Proof.
  apply (stale_apps_first_error Sample.strptime unix_epoch
           (Sample.t_2021 + 200 * us_per_day) (Sample.catalog Sample.ts_2021)
           PNone [] 180 Sample.f1 false
           [StaleApp (PStr "A") (PStr "1") Sample.f2 Sample.t_2021]).
  - vm_compute. reflexivity.
  - vm_compute. reflexivity.
Defined.

(** X7.  A timestamp that the parser rejects, on a document that passes the
    publication test, makes the call raise [ValueError]; a timestamp that is
    truthy but not a string makes it raise [TypeError].  Neither is replaced
    by the epoch. *)
Theorem malformed_timestamp_raises strptime local_epoch now
    (d : gmap string pyval) days_stale min_mb include_published v :
  is_ok (threshold_of now days_stale) = true ->
  passes_publication include_published (PDict d) ->
  d !! "qLastReloadTime" = Some v ->
  truthy v = true ->
  (forall s, v = PStr s -> strptime s = None ->
     stale_apps strptime local_epoch now [PDict d] days_stale min_mb
       include_published = Raise ValueError) /\
  ((forall s, v <> PStr s) ->
     stale_apps strptime local_epoch now [PDict d] days_stale min_mb
       include_published = Raise TypeError).
Proof.
  intros Hth (p & Hp & Hin) Hd Hv.
  destruct (threshold_of now days_stale) as [th|e] eqn:Eth; [|discriminate].
  unfold published_of in Hp. inv_bind Hp.
  assert (Hrun : forall e,
             dt_strptime strptime v = Raise e ->
             stale_apps strptime local_epoch now [PDict d] days_stale min_mb
               include_published = Raise e).
  { intros e He. rewrite stale_apps_threshold, Eth, bind_Ok.
    cbn [stale_apps_loop]. unfold stale_apps_body.
    rewrite E, bind_Ok, Hp, bind_Ok, Hin. unfold reload_time_of, dict_get.
    rewrite Hd, bind_Ok. simpl. by rewrite Hv, He. }
  split.
  - intros s -> Hs. apply Hrun. cbn [dt_strptime]. by rewrite Hs.
  - intros Hns. apply Hrun. destruct v; try reflexivity. by destruct (Hns s).
Qed.

Lemma malformed_timestamp_raises_witness :
  stale_apps Sample.strptime unix_epoch Sample.t_2021
    [PDict (Sample.meta "A" "1" (PBool false) (Some (PStr "01/01/2021")))]
    180 Sample.f1 false = Raise ValueError.
Proof.
  destruct (malformed_timestamp_raises Sample.strptime unix_epoch Sample.t_2021
              (Sample.meta "A" "1" (PBool false) (Some (PStr "01/01/2021")))
              180 Sample.f1 false (PStr "01/01/2021")) as [Hvalue _].
  - vm_compute. reflexivity.
  - exists (PBool false). split; vm_compute; reflexivity.
  - vm_compute. reflexivity.
  - reflexivity.
  - apply (Hvalue "01/01/2021"); [reflexivity | vm_compute; reflexivity].
Defined.

(** X8.  Whatever the policy, a catalog entry that is not an object makes
    the call raise [TypeError], and an object without ['qMeta'], or whose
    ['qMeta'] has no ['published'], makes it raise [KeyError]: no default is
    assumed for the publication flag. *)
Theorem malformed_document_raises strptime local_epoch now days_stale min_mb
    include_published :
  is_ok (threshold_of now days_stale) = true ->
  (forall doc, (forall d, doc <> PDict d) ->
     stale_apps strptime local_epoch now [doc] days_stale min_mb
       include_published = Raise TypeError) /\
  (forall d : gmap string pyval, d !! "qMeta" = None ->
     stale_apps strptime local_epoch now [PDict d] days_stale min_mb
       include_published = Raise KeyError) /\
  (forall (d qMeta : gmap string pyval),
     d !! "qMeta" = Some (PDict qMeta) -> qMeta !! "published" = None ->
     stale_apps strptime local_epoch now [PDict d] days_stale min_mb
       include_published = Raise KeyError).
Proof.
  intros Hth.
  destruct (threshold_of now days_stale) as [th|e] eqn:Eth; [|discriminate].
  repeat split.
  - intros doc Hdoc. rewrite stale_apps_threshold, Eth, bind_Ok.
    cbn [stale_apps_loop]. unfold stale_apps_body.
    destruct doc; try reflexivity. by destruct (Hdoc d).
  - intros d Hd. rewrite stale_apps_threshold, Eth, bind_Ok.
    cbn [stale_apps_loop]. unfold stale_apps_body, getitem. by rewrite Hd.
  - intros d qMeta Hd Hq. rewrite stale_apps_threshold, Eth, bind_Ok.
    cbn [stale_apps_loop]. unfold stale_apps_body, getitem.
    by rewrite Hd, bind_Ok, Hq.
Qed.

Lemma malformed_document_raises_witness :
  stale_apps Sample.strptime unix_epoch Sample.t_2021 [PStr "A"] 180 Sample.f1
    false = Raise TypeError /\
  stale_apps Sample.strptime unix_epoch Sample.t_2021 [PDict ∅] 180 Sample.f1
    false = Raise KeyError.
Proof.
  destruct (malformed_document_raises Sample.strptime unix_epoch Sample.t_2021
              180 Sample.f1 false) as (Htype & Hkey & _).
  - vm_compute. reflexivity.
  - split; [by apply Htype | by apply Hkey].
Defined.

(** X9.  The threshold is computed before the catalog is looked at.  When
    [days_stale] is within the range of [timedelta] and [now - days_stale]
    days is a valid datetime, the empty catalog gives the empty list;
    otherwise every catalog, the empty one included, gives
    [OverflowError]. *)
Theorem stale_apps_threshold_range strptime local_epoch now days_stale min_mb
    include_published :
  (Z.abs days_stale <= 999999999 /\
   datetime_ok (now - days_stale * us_per_day) ->
   stale_apps strptime local_epoch now [] days_stale min_mb include_published
   = Ok []) /\
  (~ (Z.abs days_stale <= 999999999 /\
      datetime_ok (now - days_stale * us_per_day)) ->
   forall app_list,
     stale_apps strptime local_epoch now app_list days_stale min_mb
       include_published = Raise OverflowError).
Proof.
  split.
  - intros [Hd Hok]. rewrite stale_apps_threshold.
    unfold threshold_of, timedelta_days.
    destruct (Z.leb_spec (Z.abs days_stale) 999999999) as [_|Hbig]; [|lia].
    rewrite bind_Ok.
    by rewrite (proj2 (datetime_sub_Ok now (days_stale * us_per_day) _)
                  (conj eq_refl Hok)).
  - intros Hno app_list. rewrite stale_apps_threshold.
    unfold threshold_of, timedelta_days, datetime_sub.
    destruct (Z.leb_spec (Z.abs days_stale) 999999999) as [Hd|Hd];
      [|reflexivity].
    rewrite bind_Ok.
    destruct (Z.leb_spec 0 (now - days_stale * us_per_day)) as [Hlo|Hlo],
             (Z.leb_spec (now - days_stale * us_per_day) datetime_max)
               as [Hhi|Hhi];
      try reflexivity.
    exfalso. apply Hno. unfold datetime_ok. lia.
Qed.

Lemma stale_apps_threshold_range_witness :
  stale_apps Sample.strptime unix_epoch Sample.t_2021 [] 180 Sample.f1 false
  = Ok [] /\
  stale_apps Sample.strptime unix_epoch Sample.t_2021
    (Sample.catalog Sample.ts_2021) 1000000 Sample.f1 false
  = Raise OverflowError.
Proof.
  split.
  - apply (stale_apps_threshold_range Sample.strptime unix_epoch Sample.t_2021
             180 Sample.f1 false).
    vm_compute. repeat split; discriminate.
  - apply (stale_apps_threshold_range Sample.strptime unix_epoch Sample.t_2021
             1000000 Sample.f1 false).
    vm_compute. intros [_ [H _]]. by apply H.
Defined.

Lemma forallb_seqZ (f : Z -> bool) (m n b : Z) :
  forallb f (seqZ m n) = true -> m <= b < m + n -> f b = true.
Proof.
  intros Hall Hb. apply Is_true_true_1.
  apply Is_true_true_2, forallb_True in Hall.
  rewrite Forall_forall in Hall. apply Hall, elem_of_seqZ. lia.
Qed.

(** The sizes of 0 to 5242 bytes all round to 0.0 megabytes. *)
Lemma tiny_sizes_round_to_zero :
  forallb (fun bytes => match (kb ← truediv (PInt bytes) 1024;
                               mb ← truediv kb 1024;
                               round mb 2) with
                        | Ok (S754_zero false) => true
                        | _ => false
                        end) (seqZ 0 5243) = true.
Proof. vm_compute. reflexivity. Qed.

(** X10.  With a minimum size that is not negative, a file of at most 5242
    bytes is never retained, its size being 0.0 megabytes after rounding;
    5243 bytes are the first to round to 0.01. *)
Theorem tiny_files_are_never_stale strptime local_epoch th min_mb
    include_published doc bytes c :
  getitem doc "qFileSize" = Ok (PInt bytes) ->
  0 <= bytes <= 5242 ->
  fleb (S754_zero false) min_mb = true ->
  size_of doc = Ok (S754_zero false) /\
  ~ accepted strptime local_epoch th min_mb include_published doc c /\
  (forall doc', getitem doc' "qFileSize" = Ok (PInt 5243) ->
     size_of doc' = Ok (ratio_to_float 1 100)).
Proof.
  intros Hdoc Hbytes Hmin.
  assert (Hsize : size_of doc = Ok (S754_zero false)).
  { unfold size_of. rewrite Hdoc, bind_Ok.
    pose proof (forallb_seqZ _ 0 5243 bytes tiny_sizes_round_to_zero
                  ltac:(lia)) as Hzero.
    cbv beta in Hzero.
    destruct (kb ← truediv (PInt bytes) 1024; mb ← truediv kb 1024; round mb 2)
      as [[[]| | |]|]; try discriminate Hzero.
    reflexivity. }
  split; [exact Hsize|]. split.
  - intros (_ & _ & (Hs & Hm) & _). rewrite Hsize in Hs. inversion Hs as [Hz].
    rewrite <- Hz in Hm.
    destruct min_mb as [[]|[]| |[]]; simpl in *; discriminate.
  - intros doc' H. unfold size_of. rewrite H. vm_compute. reflexivity.
Qed.

Lemma tiny_files_are_never_stale_witness :
  size_of (Sample.doc "A" "1" (PBool false) 5242 None) = Ok (S754_zero false).
Proof.
  apply (tiny_files_are_never_stale Sample.strptime unix_epoch Sample.t_2021
           Sample.f1 false (Sample.doc "A" "1" (PBool false) 5242 None) 5242
           (StaleApp (PStr "A") (PStr "1") Sample.f1 unix_epoch)).
  - vm_compute. reflexivity.
  - lia.
  - reflexivity.
Defined.

(** X11.  A minimum size that is not a number retains nothing: with
    [min_mb = nan] the result of [stale_apps], when there is one, is
    empty. *)
Theorem nan_floor_selects_nothing strptime local_epoch now app_list
    days_stale include_published out :
  stale_apps strptime local_epoch now app_list days_stale S754_nan
    include_published = Ok out ->
  out = [].
Proof.
  intros H. apply stale_apps_Ok in H as (th & _ & H).
  apply loop_invariant in H as (new & -> & Hall).
  destruct new as [|c new]; [reflexivity|].
  inversion Hall as [|? ? (doc & _ & _ & _ & (_ & Hm) & _) _]. discriminate.
Qed.

Lemma nan_floor_selects_nothing_witness :
  @nil stale_app = [].
Proof.
  apply (nan_floor_selects_nothing Sample.strptime unix_epoch
           (Sample.t_2021 + 200 * us_per_day) (Sample.catalog Sample.ts_2021)
           180 false []).
  vm_compute. reflexivity.
Defined.

(* ===================================================================== *)
(** * Further properties of the RPC client                                *)
(* ===================================================================== *)

Lemma connect_Ok srv host tr g :
  greets srv host tr g ->
  _connect srv host tr
  = (Ok (length tr), tr ++ [Connect host true; Recv (length tr) (Some g)]).
Proof.
  intros [Ha Hg].
  unfold _connect, create_connection, ws_recv, mbind, io_bind, mret, io_ret.
  rewrite Ha, Hg. by rewrite <- app_assoc.
Qed.

Lemma communicate_Ok srv ws message tr response :
  exchanges srv ws tr message response ->
  _communicate srv ws message tr
  = (Ok response,
     tr ++ [Send ws message true; Recv ws (Some (Some response))]).
Proof.
  intros [Hd Hr].
  unfold _communicate, ws_send, ws_recv, lift, mbind, io_bind, json_loads.
  rewrite Hd, Hr. by rewrite <- app_assoc.
Qed.

(** X12.  [_connect] sends nothing and closes nothing; it returns, with the
    new connection, exactly when the server accepts and a first frame
    arrives, and then that one frame is all that was read.  When the frame
    does not arrive the connection stays open behind the exception. *)
Theorem connect_consumes_one_frame srv host tr :
  let out := _connect srv host tr in
  sent out.2 = sent tr /\
  closed out.2 = closed tr /\
  (forall ws, out.1 = Ok ws <->
              ws = length tr /\ exists g, greets srv host tr g) /\
  (forall ws, out.1 = Ok ws ->
              exists g, out.2 = tr ++ [Connect host true; Recv ws (Some g)]) /\
  (accept srv tr host = true -> is_ok out.1 = false ->
   opened out.2 = opened tr ++ [length tr]).
Proof.
  unfold _connect, create_connection, ws_recv, mbind, io_bind, mret, io_ret,
    greets.
  destruct (accept srv tr host) eqn:Ha;
    [destruct (respond srv (tr ++ [Connect host true])) as [g|] eqn:Hg|];
    cbn [fst snd is_ok]; rewrite <- ?app_assoc, ?sent_app, ?closed_app,
      ?opened_app; cbn [app sent closed opened_from]; rewrite ?app_nil_r;
    repeat split; try done.
  - congruence.
  - eauto.
  - intros [-> _]. reflexivity.
  - intros ws [= <-]. eauto.
  - intros [_ (g & _ & [=])].
  - intros [_ (g & [=] & _)].
Qed.

Lemma connect_consumes_one_frame_witness :
  opened (_connect {| accept := fun _ _ => true; deliver := fun _ => true;
                      respond := fun _ => None |} "qs" []).2
  = opened [] ++ [length (@nil event)].
Proof.
  apply (connect_consumes_one_frame
           {| accept := fun _ _ => true; deliver := fun _ => true;
              respond := fun _ => None |} "qs" []); reflexivity.
Defined.

(** X13.  [_communicate] hands exactly one message to the socket, opens and
    closes nothing, and returns a reply exactly when the message is
    delivered and answered by a frame that decodes to it; when the message
    is not delivered no frame is awaited. *)
Theorem communicate_is_one_exchange srv ws message tr :
  let out := _communicate srv ws message tr in
  sent out.2 = sent tr ++ [message] /\
  opened out.2 = opened tr /\
  closed out.2 = closed tr /\
  (forall response,
      out.1 = Ok response <-> exchanges srv ws tr message response) /\
  (deliver srv tr = false -> out.2 = tr ++ [Send ws message false]).
Proof.
  unfold _communicate, ws_send, ws_recv, lift, mbind, io_bind, json_loads,
    exchanges.
  destruct (deliver srv tr) eqn:Hd;
    [destruct (respond srv (tr ++ [Send ws message true]))
       as [[response|]|] eqn:Hr|];
    cbn [fst snd]; rewrite <- ?app_assoc, ?sent_app, ?closed_app,
      ?opened_app; cbn [app sent closed opened_from]; rewrite ?app_nil_r;
    repeat split; try done; try (by intros [_ [=]]); try (by intros [[=] _]).
  - congruence.
  - by intros [_ [= ->]].
Qed.

Lemma communicate_is_one_exchange_witness :
  (_communicate {| accept := fun _ _ => true; deliver := fun _ => false;
                   respond := fun _ => None |} 0%nat GetDocList_msg []).2
  = [] ++ [Send 0%nat GetDocList_msg false].
Proof.
  apply (communicate_is_one_exchange
           {| accept := fun _ _ => true; deliver := fun _ => false;
              respond := fun _ => None |} 0%nat GetDocList_msg []).
  reflexivity.
Defined.

(* ===================================================================== *)
(** * Further properties of the inventory and of the driver               *)
(* ===================================================================== *)

Lemma get_app_list_answered srv host tr response :
  lists srv host tr response ->
  exists g,
    get_app_list srv host tr
    = (result ← getitem response "result"; getitem result "qDocList",
       tr ++ [Connect host true; Recv (length tr) (Some g);
              Send (length tr) GetDocList_msg true;
              Recv (length tr) (Some (Some response));
              Close (length tr)]).
Proof.
  intros (g & Hgreets & Hexchange). exists g. unfold get_app_list.
  rewrite io_bind_run, (connect_Ok _ _ _ _ Hgreets).
  rewrite io_bind_run, (communicate_Ok _ _ _ _ _ Hexchange).
  unfold ws_close, lift, mbind, io_bind, result_bind, bind.
  rewrite <- !app_assoc. cbn [app].
  destruct (getitem response "result") as [result|e];
    [destruct (getitem result "qDocList") as [docs|e]|]; reflexivity.
Qed.

(** X14.  When the inventory request is answered, [get_app_list] has sent
    the single message [GetDocList] and closed its connection before it
    looks into the reply: it returns [reply['result']['qDocList']], and a
    reply without these keys raises [KeyError] with the connection already
    closed. *)
Theorem get_app_list_closes_then_reads srv host tr response :
  lists srv host tr response ->
  let out := get_app_list srv host tr in
  out.1 = (result ← getitem response "result"; getitem result "qDocList") /\
  sent out.2 = sent tr ++ [GetDocList_msg] /\
  closed out.2 = closed tr ++ [length tr] /\
  leaked out.2 = leaked tr.
Proof.
  intros Hlists. cbv zeta.
  destruct (get_app_list_answered _ _ _ _ Hlists) as (g & ->).
  cbn [fst snd]. rewrite sent_app, closed_app, leaked_closed; done.
Qed.

Lemma get_app_list_closes_then_reads_witness :
  (get_app_list (Sample.answering Sample.error_reply) "qs" []).1
  = Raise KeyError /\
  leaked (get_app_list (Sample.answering Sample.error_reply) "qs" []).2
  = leaked [].
Proof.
  destruct (get_app_list_closes_then_reads (Sample.answering Sample.error_reply)
              "qs" [] Sample.saved_reply) as (Hres & _ & _ & Hleak).
  - exists (Some Sample.greeting). repeat split; vm_compute; reflexivity.
  - split; [|exact Hleak]. rewrite Hres. vm_compute. reflexivity.
Defined.

Lemma getitem_raises v k e :
  getitem v k = Raise e -> e = KeyError \/ e = TypeError.
Proof.
  destruct v; simpl; try (intros [= <-]; auto).
  destruct (d !! k); [discriminate|]. intros [= <-]. auto.
Qed.

Ltac run_inventory :=
  unfold get_app_list, _connect, _communicate, create_connection,
    ws_recv, ws_send, ws_close, lift, mbind, io_bind, mret, io_ret,
    json_loads.

Ltac shape :=
  eexists _, _; split; [by rewrite <- ?app_assoc | simpl; auto].

Lemma get_app_list_run srv host tr :
  exists evs r,
    get_app_list srv host tr = (r, tr ++ evs) /\
    (sent evs = [] \/ sent evs = [GetDocList_msg]) /\
    match r with
    | Raise WebSocketException | Raise JSONDecodeError => closed evs = []
    | _ => opened_from (length tr) evs = [length tr] /\
           closed evs = [length tr]
    end.
Proof.
  run_inventory.
  destruct (accept srv tr host); [|shape].
  destruct (respond srv _) as [g|]; [|shape].
  destruct (deliver srv _); [|shape].
  destruct (respond srv _) as [[response|]|]; [|shape..].
  destruct (getitem response "result") as [result|e] eqn:Hres.
  - destruct (getitem result "qDocList") as [docs|e] eqn:Hdocs; [shape|].
    apply getitem_raises in Hdocs as [->| ->]; shape.
  - apply getitem_raises in Hres as [->| ->]; shape.
Qed.

(** X15.  [get_app_list] sends at most the one message [GetDocList].  Its
    connection is left open exactly when it raises a socket error or cannot
    decode the reply; whenever it returns, or raises because the reply lacks
    a key, the connection it opened is closed. *)
Theorem get_app_list_connection srv host tr :
  let out := get_app_list srv host tr in
  (sent out.2 = sent tr \/ sent out.2 = sent tr ++ [GetDocList_msg]) /\
  match out.1 with
  | Raise WebSocketException | Raise JSONDecodeError =>
      closed out.2 = closed tr
  | _ => closed out.2 = closed tr ++ [length tr] /\ leaked out.2 = leaked tr
  end.
Proof.
  destruct (get_app_list_run srv host tr) as (evs & r & -> & Hsent & Hr).
  cbn [fst snd]. rewrite sent_app, closed_app. split.
  - destruct Hsent as [-> | ->]; [left; by rewrite app_nil_r | by right].
  - destruct r as [docs|[]]; try (by rewrite Hr, app_nil_r);
      destruct Hr as [Ho Hc]; by rewrite (leaked_closed _ _ Ho Hc), Hc.
Qed.

(** X16.  The reply to [DoSave] is not examined: when the document opens
    and the save request is answered, [drop_data_from_app] closes the
    connection and returns that answer, whatever it is, an error object
    included. *)
Theorem save_reply_is_not_examined srv host doc_id tr g response qType
    qHandle saved :
  greets srv host tr g ->
  exchanges srv (length tr)
    (tr ++ [Connect host true; Recv (length tr) (Some g)])
    (OpenDoc_msg doc_id) response ->
  qReturn response "qType" = Ok qType ->
  eq_str qType "Doc" = true ->
  qReturn response "qHandle" = Ok qHandle ->
  exchanges srv (length tr)
    (tr ++ [Connect host true; Recv (length tr) (Some g);
            Send (length tr) (OpenDoc_msg doc_id) true;
            Recv (length tr) (Some (Some response))])
    (DoSave_msg qHandle) saved ->
  drop_data_from_app srv host doc_id tr
  = (Ok saved,
     tr ++ [Connect host true; Recv (length tr) (Some g);
            Send (length tr) (OpenDoc_msg doc_id) true;
            Recv (length tr) (Some (Some response));
            Send (length tr) (DoSave_msg qHandle) true;
            Recv (length tr) (Some (Some saved));
            Close (length tr)]).
Proof.
  intros Hgreets Hopen Hty Hdoc Hhandle Hsave. unfold drop_data_from_app.
  rewrite io_bind_run, (connect_Ok _ _ _ _ Hgreets).
  rewrite io_bind_run, (communicate_Ok _ _ _ _ _ Hopen).
  rewrite <- app_assoc. cbn [app].
  rewrite io_bind_run. unfold lift at 1. rewrite Hty.
  rewrite Hdoc, io_bind_run, io_bind_run. unfold lift at 1. rewrite Hhandle.
  rewrite (communicate_Ok _ _ _ _ _ Hsave).
  rewrite <- app_assoc. cbn [app]. unfold ws_close, mbind, io_bind, mret, io_ret.
  by rewrite <- app_assoc.
Qed.

Lemma save_reply_is_not_examined_witness :
  drop_data_from_app
    {| accept := fun _ _ => true; deliver := fun _ => true;
       respond := fun tr =>
         match tr with
         | [_; _; _] => Some (Some (Sample.opened_reply (PInt 1)))
         | [_; _; _; _; _] => Some (Some Sample.error_reply)
         | _ => Some None
         end |} "qs" (PStr "1") []
  = (Ok Sample.error_reply,
     [] ++ [Connect "qs" true; Recv 0%nat (Some None);
            Send 0%nat (OpenDoc_msg (PStr "1")) true;
            Recv 0%nat (Some (Some (Sample.opened_reply (PInt 1))));
            Send 0%nat (DoSave_msg (PInt 1)) true;
            Recv 0%nat (Some (Some Sample.error_reply));
            Close 0%nat]).
Proof.
  apply (save_reply_is_not_examined _ "qs" (PStr "1") [] None
           (Sample.opened_reply (PInt 1)) (PStr "Doc") (PInt 1)
           Sample.error_reply).
  - split; reflexivity.
  - split; reflexivity.
  - vm_compute. reflexivity.
  - reflexivity.
  - vm_compute. reflexivity.
  - split; reflexivity.
Defined.

Ltac attempt_shape :=
  eexists _, _; split; [by rewrite <- ?app_assoc|];
  split; [repeat constructor|]; simpl; eauto 6.

Lemma drop_data_from_app_shape srv host doc_id tr :
  exists evs r,
    drop_data_from_app srv host doc_id tr = (r, tr ++ evs) /\
    on_connection (length tr) evs /\
    (sent evs = [] \/ sent evs = [OpenDoc_msg doc_id] \/
     exists qHandle, sent evs = [OpenDoc_msg doc_id; DoSave_msg qHandle]) /\
    (opened_from (length tr) evs = [] \/
     opened_from (length tr) evs = [length tr]).
Proof.
  run_io.
  destruct (accept srv tr host); [|attempt_shape].
  destruct (respond srv _) as [g|]; [|attempt_shape].
  destruct (deliver srv _); [|attempt_shape].
  destruct (respond srv _) as [[response|]|]; [|attempt_shape..].
  destruct (qReturn response "qType") as [qType|e]; [|attempt_shape].
  destruct (eq_str qType "Doc"); [|attempt_shape].
  destruct (qReturn response "qHandle") as [qHandle|e]; [|attempt_shape].
  destruct (deliver srv _); [|attempt_shape].
  destruct (respond srv _) as [[saved|]|]; attempt_shape.
Qed.

(** X17.  One attempt uses one connection and at most two messages: every
    frame sent, received or closed by [drop_data_from_app] is on the
    connection it opened; what it sends is nothing, or the [OpenDoc]
    message, or the [OpenDoc] message followed by one [DoSave]; and the
    [OpenDoc] message always addresses the global handle -1, names the
    document and asks for it without data. *)
Theorem drop_data_from_app_footprint srv host doc_id tr :
  (exists evs,
      (drop_data_from_app srv host doc_id tr).2 = tr ++ evs /\
      on_connection (length tr) evs /\
      (sent evs = [] \/ sent evs = [OpenDoc_msg doc_id] \/
       exists qHandle, sent evs = [OpenDoc_msg doc_id; DoSave_msg qHandle]) /\
      (length (opened_from (length tr) evs) <= 1)%nat) /\
  getitem (OpenDoc_msg doc_id) "handle" = Ok (PInt (-1)) /\
  (params ← getitem (OpenDoc_msg doc_id) "params"; getitem params "qDocName")
  = Ok doc_id /\
  (params ← getitem (OpenDoc_msg doc_id) "params"; getitem params "qNoData")
  = Ok (PBool true).
Proof.
  split; [|repeat split; vm_compute; reflexivity].
  destruct (drop_data_from_app_shape srv host doc_id tr)
    as (evs & r & -> & Hconn & Hsent & Hopen).
  exists evs. repeat split; auto. destruct Hopen as [-> | ->]; simpl; lia.
Qed.

(** X18.  The truncation loop announces and attempts the identifiers in the
    order of the list and stops at the first attempt that raises.  Some
    number [k] of identifiers from the head of the list have been announced
    and dialled for, and no other.  When the loop returns, [k] is the length
    of the list and the documents asked for on the wire are the whole list,
    in order.  When the loop raises, [k] is at least one, the exception is
    the one that the attempt on the [k]-th identifier raised, the trace ends
    where that attempt ended, and the documents asked for are the first [k]
    identifiers, or the first [k - 1] when the failing attempt raised before
    it sent its request. *)
Theorem truncate_loop_attempts_a_prefix srv host total i doc_ids tr :
  let out := truncate_loop srv host total i doc_ids tr in
  exists k,
    (k <= length doc_ids)%nat /\
    printed out.2 = printed tr ++ progress_lines total i (take k doc_ids) /\
    dialled out.2 = dialled tr ++ replicate k host /\
    match out.1 with
    | Ok _ => k = length doc_ids /\ requested out.2 = requested tr ++ doc_ids
    | Raise e =>
        (0 < k)%nat /\
        (requested out.2 = requested tr ++ take (pred k) doc_ids \/
         requested out.2 = requested tr ++ take k doc_ids) /\
        exists _id mid,
          doc_ids !! pred k = Some _id /\
          drop_data_from_app srv host _id (tr ++ mid) = (Raise e, out.2)
    end.
Proof.
  destruct (truncate_loop_attempts srv host total doc_ids i tr)
    as (k & evs & r & -> & Hk & Hlines & Hdials & Hr).
  exists k. cbn [fst snd].
  rewrite printed_app, dialled_app, requested_app, Hlines, Hdials.
  repeat split; [exact Hk|].
  destruct r as [[]|e].
  - destruct Hr as [-> ->]. by split.
  - destruct Hr as (Hpos & Hasked & x & mid & Hx & Hlast).
    split; [exact Hpos|].
    split; [destruct Hasked as [-> | ->]; [left | right]; reflexivity|].
    by exists x, mid.
Qed.

Lemma leaked_quiet tr evs :
  opened_from (length tr) evs = [] -> closed evs = [] ->
  leaked (tr ++ evs) = leaked tr.
Proof.
  intros Ho Hc. unfold leaked. by rewrite opened_app, closed_app, Ho, Hc, !app_nil_r.
Qed.

Lemma truncate_loop_connections srv host total doc_ids : forall i tr tr',
  truncate_loop srv host total i doc_ids tr = (Ok tt, tr') ->
  leaked tr' = leaked tr /\
  length (opened tr') = (length (opened tr) + length doc_ids)%nat.
Proof.
  induction doc_ids as [|_id rest IH]; intros i tr tr' H.
  - inversion H; subst. split; [reflexivity | simpl; lia].
  - cbn [truncate_loop] in H. rewrite io_bind_run in H. unfold print at 1 in H.
    rewrite io_bind_run in H.
    destruct (drop_data_from_app_run srv host _id
                (tr ++ [Print (progress_line _id i total)]))
      as (evs1 & r1 & Hrun & _ & Hr1).
    rewrite Hrun in H. destruct r1 as [response|e]; [|discriminate].
    destruct Hr1 as [Ho Hc]. apply IH in H as [-> ->].
    rewrite (leaked_closed _ _ Ho Hc), leaked_quiet by reflexivity.
    split; [reflexivity|].
    rewrite !opened_app, Ho, !length_app. simpl. lia.
Qed.

(** X19.  A truncation that runs to its end leaves no connection behind: it
    has opened one connection per stale application, closed each of them,
    and printed ["Done!"] last. *)
Theorem truncate_leaves_no_connection srv host stale_applications tr :
  returns (truncate srv host stale_applications) tr ->
  let out := truncate srv host stale_applications tr in
  leaked out.2 = leaked tr /\
  length (opened out.2)
  = (length (opened tr) + length stale_applications)%nat /\
  last (printed out.2) = Some (PStr "Done!").
Proof.
  unfold returns, truncate. cbv zeta. rewrite io_bind_run.
  destruct (truncate_loop srv host _ 0 (map app_id stale_applications) tr)
    as [[[]|e] tr'] eqn:Hloop; [|discriminate].
  intros _. apply truncate_loop_connections in Hloop as [Hleak Hopen].
  unfold print. cbn [fst snd].
  rewrite leaked_quiet, opened_app, printed_app, length_app, Hopen, length_map
    by reflexivity.
  split; [exact Hleak|]. split; [simpl; lia|]. cbn [printed]. by rewrite last_snoc.
Qed.

Lemma truncate_leaves_no_connection_witness :
  leaked (truncate (Sample.answering Sample.null_reply) "qs"
            [StaleApp (PStr "A") (PStr "1") Sample.f2 unix_epoch;
             StaleApp (PStr "B") (PStr "2") Sample.f2 unix_epoch] []).2
  = leaked [].
Proof.
  apply (truncate_leaves_no_connection (Sample.answering Sample.null_reply) "qs"
           [StaleApp (PStr "A") (PStr "1") Sample.f2 unix_epoch;
            StaleApp (PStr "B") (PStr "2") Sample.f2 unix_epoch] []).
  vm_compute. reflexivity.
Defined.

Lemma truncate_loop_sent srv host total doc_ids : forall i tr,
  exists new,
    sent (truncate_loop srv host total i doc_ids tr).2 = sent tr ++ new /\
    Forall (fun message =>
              (exists _id, _id ∈ doc_ids /\ message = OpenDoc_msg _id) \/
              (exists qHandle, message = DoSave_msg qHandle)) new.
Proof.
  induction doc_ids as [|_id rest IH]; intros i tr.
  - exists []. by rewrite app_nil_r.
  - cbn [truncate_loop]. rewrite io_bind_run. unfold print at 1.
    rewrite io_bind_run.
    destruct (drop_data_from_app_shape srv host _id
                (tr ++ [Print (progress_line _id i total)]))
      as (evs1 & r1 & -> & _ & Hsent & _).
    assert (Hfirst : Forall (fun message =>
                (exists x, x ∈ _id :: rest /\ message = OpenDoc_msg x) \/
                (exists qHandle, message = DoSave_msg qHandle)) (sent evs1)).
    { assert (Hopen : (exists x, x ∈ _id :: rest /\
                                 OpenDoc_msg _id = OpenDoc_msg x) \/
                      (exists qHandle, OpenDoc_msg _id = DoSave_msg qHandle)).
      { left. exists _id. split; [by left | reflexivity]. }
      destruct Hsent as [-> | [-> | (h & ->)]].
      - constructor.
      - constructor; [exact Hopen | constructor].
      - constructor; [exact Hopen|].
        constructor; [right; by exists h | constructor]. }
    destruct r1 as [response|e].
    + destruct (IH (S i) ((tr ++ [Print (progress_line _id i total)]) ++ evs1))
        as (new & -> & Hnew).
      exists (sent evs1 ++ new). rewrite !sent_app, <- !app_assoc.
      split; [reflexivity|]. apply Forall_app. split; [exact Hfirst|].
      eapply Forall_impl; [exact Hnew|].
      intros message [(x & Hx & ->)|Hsave]; [left|by right].
      exists x. split; [by right | reflexivity].
    + exists (sent evs1). cbn [snd]. rewrite !sent_app, <- !app_assoc.
      by split.
Qed.

Lemma truncate_sent srv host stale_applications tr :
  exists new,
    sent (truncate srv host stale_applications tr).2 = sent tr ++ new /\
    Forall (fun message =>
              (exists c, c ∈ stale_applications /\
                         message = OpenDoc_msg (app_id c)) \/
              (exists qHandle, message = DoSave_msg qHandle)) new.
Proof.
  destruct (truncate_loop_sent srv host
              (length (map app_id stale_applications))
              (map app_id stale_applications) 0 tr) as (new & Hsent & Hnew).
  exists new. split.
  - unfold truncate. cbv zeta. rewrite io_bind_run.
    destruct (truncate_loop srv host _ 0 (map app_id stale_applications) tr)
      as [[[]|e] tr']; cbn [snd] in *; [|exact Hsent].
    unfold print. cbn [snd]. by rewrite sent_app, app_nil_r.
  - eapply Forall_impl; [exact Hnew|].
    intros message [(x & Hx & ->)|Hsave]; [left|by right].
    apply list_elem_of_fmap in Hx as (c & -> & Hc). by exists c.
Qed.

(** X20.  Truncation touches only what the evaluation retained: of the
    messages sent while truncating the result of [stale_apps], every one is
    either a [DoSave] or the [OpenDoc] of the identifier of a catalog
    document that passes the publication, staleness and size tests. *)
Theorem truncation_opens_only_stale_apps strptime local_epoch srv host now
    app_list days_stale min_mb include_published stale_applications tr :
  stale_apps strptime local_epoch now app_list days_stale min_mb
    include_published = Ok stale_applications ->
  exists new,
    sent (truncate srv host stale_applications tr).2 = sent tr ++ new /\
    Forall (fun message =>
              (exists doc c,
                  doc ∈ app_list /\
                  accepted strptime local_epoch
                    (now - days_stale * us_per_day) min_mb include_published
                    doc c /\
                  message = OpenDoc_msg (app_id c)) \/
              (exists qHandle, message = DoSave_msg qHandle)) new.
Proof.
  intros H. apply stale_apps_Ok in H as (th & Hth & H).
  apply threshold_of_Ok in Hth as [-> _].
  apply loop_invariant in H as (apps & -> & Hall). simpl.
  destruct (truncate_sent srv host apps tr) as (new & Hsent & Hnew).
  exists new. split; [exact Hsent|].
  eapply Forall_impl; [exact Hnew|].
  intros message [(c & Hc & ->)|Hsave]; [left|by right].
  rewrite Forall_forall in Hall. destruct (Hall c Hc) as (doc & Hdoc & Hacc).
  by exists doc, c.
Qed.

Lemma truncation_opens_only_stale_apps_witness :
  exists new,
    sent (truncate (Sample.answering Sample.null_reply) "qs"
            [StaleApp (PStr "A") (PStr "1") Sample.f2 Sample.t_2021] []).2
    = sent [] ++ new /\
    Forall (fun message =>
              (exists doc c,
                  doc ∈ Sample.catalog Sample.ts_2021 /\
                  accepted Sample.strptime unix_epoch
                    (Sample.t_2021 + 200 * us_per_day - 180 * us_per_day)
                    Sample.f1 false doc c /\
                  message = OpenDoc_msg (app_id c)) \/
              (exists qHandle, message = DoSave_msg qHandle)) new.
Proof.
  apply (truncation_opens_only_stale_apps Sample.strptime unix_epoch
           (Sample.answering Sample.null_reply) "qs"
           (Sample.t_2021 + 200 * us_per_day) (Sample.catalog Sample.ts_2021)
           180 Sample.f1 false).
  vm_compute. reflexivity.
Defined.

(* ===================================================================== *)
(** * Properties of the main block                                        *)
(* ===================================================================== *)

Lemma silent_print line : silent (print line).
Proof. intros tr. unfold print. cbn [snd]. by rewrite sent_app, app_nil_r. Qed.

Lemma silent_lift {A} (r : result A) : silent (lift r).
Proof. by intros tr. Qed.

Lemma silent_ret {A} (a : A) : silent (mret a : io A).
Proof. by intros tr. Qed.

Lemma silent_bind {A B} (m : io A) (k : A -> io B) :
  silent m -> (forall a, silent (k a)) -> silent (m ≫= k).
Proof.
  intros Hm Hk tr. rewrite io_bind_run. specialize (Hm tr).
  destruct (m tr) as [[a|e] tr']; cbn [snd] in *; [|exact Hm].
  by rewrite Hk.
Qed.

Lemma bind_returns {A B} (P : B -> Prop) (m : io A) (k : A -> io B) tr :
  (forall a t b, (k a t).1 = Ok b -> P b) ->
  forall b, ((m ≫= k) tr).1 = Ok b -> P b.
Proof.
  intros Hk b. rewrite io_bind_run.
  destruct (m tr) as [[a|e] tr']; [apply Hk | discriminate].
Qed.

Lemma sends_only_silent {A} P (m : io A) : silent m -> sends_only P m.
Proof. intros Hm tr. exists []. by rewrite Hm, app_nil_r. Qed.

Lemma sends_only_bind {A B} P (m : io A) (k : A -> io B) :
  sends_only P m -> (forall a, sends_only P (k a)) -> sends_only P (m ≫= k).
Proof.
  intros Hm Hk tr. rewrite io_bind_run.
  destruct (Hm tr) as (new1 & H1 & HP1).
  destruct (m tr) as [[a|e] tr']; cbn [snd] in *; [|by exists new1].
  destruct (Hk a tr') as (new2 & H2 & HP2).
  exists (new1 ++ new2). rewrite H2, H1, <- app_assoc.
  split; [reflexivity | by apply Forall_app].
Qed.

Lemma sends_only_lift_bind {A B} P (r : result A) (k : A -> io B) :
  (forall a, r = Ok a -> sends_only P (k a)) -> sends_only P (lift r ≫= k).
Proof.
  intros Hk tr. rewrite io_bind_run. unfold lift.
  destruct r as [a|e]; [by apply Hk|]. exists []. by rewrite app_nil_r.
Qed.

Lemma stale_apps_on_list strptime local_epoch now l days_stale min_mb
    include_published :
  stale_apps_on strptime local_epoch now (PList l) days_stale min_mb
    include_published
  = stale_apps strptime local_epoch now l days_stale min_mb include_published.
Proof. reflexivity. Qed.

(** X21.  Without [--truncate] the script only reads: provided that writing
    the report sends nothing, the one message it can hand to a socket is
    [GetDocList], and when it ends normally it ends with [sys.exit(0)]. *)
Theorem dry_run_only_lists srv strptime local_epoch fsum
    (write_stale_apps_to_csv : list stale_app -> io unit) now args tr :
  args_truncate args = false ->
  (forall apps, silent (write_stale_apps_to_csv apps)) ->
  let out := main srv strptime local_epoch fsum write_stale_apps_to_csv now
               args tr in
  (sent out.2 = sent tr \/ sent out.2 = sent tr ++ [GetDocList_msg]) /\
  (forall ending, out.1 = Ok ending -> ending = Exit 0).
Proof.
  intros Hdry Hcsv. cbv zeta.
  unfold main. rewrite Hdry. cbn [negb]. rewrite io_bind_run.
  destruct (get_app_list_run srv (args_host args) tr)
    as (evs & r & -> & Hsent & _).
  assert (Hlist : sent (tr ++ evs) = sent tr \/
                  sent (tr ++ evs) = sent tr ++ [GetDocList_msg]).
  { rewrite sent_app.
    destruct Hsent as [-> | ->]; [left; by rewrite app_nil_r | by right]. }
  destruct r as [applications|e]; [|split; [exact Hlist | discriminate]].
  match goal with
  | |- context [(?m (tr ++ evs))] =>
      assert (Hrest : silent m /\
                      forall t ending, (m t).1 = Ok ending -> ending = Exit 0)
  end.
  { split.
    - repeat (apply silent_bind; [|intros ?]);
        auto using silent_print, silent_lift, silent_ret.
      destruct (args_report args); [|apply silent_ret].
      apply silent_bind; auto using silent_print.
    - intros t. repeat (apply bind_returns; intros ? ?).
      intros ending [= <-]. reflexivity. }
  destruct Hrest as [Hsilent Hexit]. rewrite Hsilent.
  split; [exact Hlist | apply Hexit].
Qed.

Lemma dry_run_only_lists_witness :
  (sent (main (Sample.listing (Sample.catalog Sample.ts_2021)) Sample.strptime
           unix_epoch Sample.no_sum Sample.no_report
           (Sample.t_2021 + 200 * us_per_day) (Sample.args false) []).2
   = sent [] \/
   sent (main (Sample.listing (Sample.catalog Sample.ts_2021)) Sample.strptime
           unix_epoch Sample.no_sum Sample.no_report
           (Sample.t_2021 + 200 * us_per_day) (Sample.args false) []).2
   = sent [] ++ [GetDocList_msg]) /\
  (forall ending,
      (main (Sample.listing (Sample.catalog Sample.ts_2021)) Sample.strptime
         unix_epoch Sample.no_sum Sample.no_report
         (Sample.t_2021 + 200 * us_per_day) (Sample.args false) []).1
      = Ok ending -> ending = Exit 0).
Proof.
  apply (dry_run_only_lists (Sample.listing (Sample.catalog Sample.ts_2021))
           Sample.strptime unix_epoch Sample.no_sum Sample.no_report
           (Sample.t_2021 + 200 * us_per_day) (Sample.args false) []).
  - reflexivity.
  - intros apps t. reflexivity.
Defined.

(** X22.  An inventory that is not a list yields no candidate: [stale_apps]
    agrees with the loop on a list, and on any other value it raises, except
    on the empty string and the empty object, on which it returns the empty
    list. *)
Theorem stale_apps_needs_a_list strptime local_epoch now v days_stale min_mb
    include_published out :
  (forall l, v <> PList l) ->
  stale_apps_on strptime local_epoch now v days_stale min_mb include_published
  = Ok out ->
  out = [] /\ (v = PStr "" \/ v = PDict ∅).
Proof.
  intros Hv H. unfold stale_apps_on in H.
  inv_bind H. inv_bind H. inv_bind H. rename x1 into docs, E1 into Hdocs.
  assert (Hfirst : forall k rest,
             docs = PStr k :: rest -> False).
  { intros k rest ->. cbn [stale_apps_loop] in H. discriminate. }
  destruct v as [| | | |s|l|d]; try discriminate; [| |]; cbn [iterate] in Hdocs;
    inversion Hdocs; subst; clear Hdocs.
  - destruct s as [|c s]; [|exfalso; by eapply Hfirst].
    inversion H. auto.
  - exfalso. by eapply Hv.
  - destruct (map_to_list d) as [|[k w] rest] eqn:Hd;
      [|exfalso; by eapply Hfirst].
    apply map_to_list_empty_iff in Hd as ->. inversion H. auto.
Qed.

Lemma stale_apps_needs_a_list_witness :
  @nil stale_app = [] /\ (PStr "" = PStr "" \/ PStr "" = PDict ∅).
Proof.
  apply (stale_apps_needs_a_list Sample.strptime unix_epoch Sample.t_2021
           (PStr "") 180 Sample.f1 false []).
  - discriminate.
  - vm_compute. reflexivity.
Defined.

(** X23.  From the inventory to the wire: when the server lists the catalog
    [app_list] and writing the report sends nothing, the script sends
    [GetDocList] first, and every later message is a [DoSave] or the
    [OpenDoc] of the identifier of a listed document that passes the
    publication, staleness and size tests of the command line. *)
Theorem main_opens_only_stale_apps srv strptime local_epoch fsum
    (write_stale_apps_to_csv : list stale_app -> io unit) now args tr
    response app_list :
  lists srv (args_host args) tr response ->
  (result ← getitem response "result"; getitem result "qDocList")
  = Ok (PList app_list) ->
  (forall apps, silent (write_stale_apps_to_csv apps)) ->
  exists new,
    sent (main srv strptime local_epoch fsum write_stale_apps_to_csv now
            args tr).2 = sent tr ++ GetDocList_msg :: new /\
    Forall (fun message =>
              (exists doc c,
                  doc ∈ app_list /\
                  accepted strptime local_epoch
                    (now - args_days args * us_per_day) (args_min args)
                    (args_include_published args) doc c /\
                  message = OpenDoc_msg (app_id c)) \/
              (exists qHandle, message = DoSave_msg qHandle)) new.
Proof.
  intros Hlists Hdocs Hcsv.
  destruct (get_app_list_answered _ _ _ _ Hlists) as (g & Hrun).
  unfold main. cbv zeta. rewrite io_bind_run, Hrun, Hdocs.
  match goal with
  | |- context [sent (?m ?t).2] =>
      assert (Hrest : sends_only
                (fun message =>
                   (exists doc c,
                       doc ∈ app_list /\
                       accepted strptime local_epoch
                         (now - args_days args * us_per_day) (args_min args)
                         (args_include_published args) doc c /\
                       message = OpenDoc_msg (app_id c)) \/
                   (exists qHandle, message = DoSave_msg qHandle)) m);
        [|destruct (Hrest t) as (new & Hsent & Hnew)]
  end.
  - apply sends_only_bind; [apply sends_only_silent, silent_print|intros _].
    apply sends_only_lift_bind. intros apps Heval.
    rewrite stale_apps_on_list in Heval.
    apply stale_apps_Ok in Heval as (th & Hth & Heval).
    apply threshold_of_Ok in Hth as [-> _].
    apply loop_invariant in Heval as (entries & -> & Hall). simpl.
    apply sends_only_lift_bind. intros tot _.
    do 2 (apply sends_only_bind;
          [apply sends_only_silent, silent_print|intros _]).
    apply sends_only_bind; [|intros _].
    { apply sends_only_silent. destruct (args_report args); [|apply silent_ret].
      apply silent_bind; auto using silent_print. }
    destruct (args_truncate args); cbn [negb];
      [|apply sends_only_silent, silent_ret].
    apply sends_only_bind; [|intros _; apply sends_only_silent, silent_ret].
    intros t. destruct (truncate_sent srv (args_host args) entries t)
      as (new & Hsent & Hnew).
    exists new. split; [exact Hsent|].
    eapply Forall_impl; [exact Hnew|].
    intros message [(c & Hc & ->)|Hsave]; [left|by right].
    rewrite Forall_forall in Hall. destruct (Hall c Hc) as (doc & Hdoc & Hacc).
    by exists doc, c.
  - exists new. split; [|exact Hnew].
    rewrite Hsent, sent_app. cbn [sent app]. by rewrite <- app_assoc.
Qed.

Lemma main_opens_only_stale_apps_witness :
  exists new,
    sent (main (Sample.listing (Sample.catalog Sample.ts_2021)) Sample.strptime
            unix_epoch Sample.no_sum Sample.no_report
            (Sample.t_2021 + 200 * us_per_day) (Sample.args true) []).2
    = sent [] ++ GetDocList_msg :: new /\
    Forall (fun message =>
              (exists doc c,
                  doc ∈ Sample.catalog Sample.ts_2021 /\
                  accepted Sample.strptime unix_epoch
                    (Sample.t_2021 + 200 * us_per_day
                     - args_days (Sample.args true) * us_per_day)
                    (args_min (Sample.args true))
                    (args_include_published (Sample.args true)) doc c /\
                  message = OpenDoc_msg (app_id c)) \/
              (exists qHandle, message = DoSave_msg qHandle)) new.
Proof.
  apply (main_opens_only_stale_apps
           (Sample.listing (Sample.catalog Sample.ts_2021)) Sample.strptime
           unix_epoch Sample.no_sum Sample.no_report
           (Sample.t_2021 + 200 * us_per_day) (Sample.args true) []
           (Sample.inventory_reply (Sample.catalog Sample.ts_2021))).
  - exists (Some Sample.greeting). repeat split; vm_compute; reflexivity.
  - vm_compute. reflexivity.
  - intros apps t. reflexivity.
Defined.

(** X24.  An error of the evaluation ends the script before anything is
    truncated: when the server lists the inventory and [stale_apps] raises
    on it, the script raises the same exception, having sent [GetDocList]
    and nothing else, and printed only its first line. *)
Theorem main_stops_on_evaluation_error srv strptime local_epoch fsum
    (write_stale_apps_to_csv : list stale_app -> io unit) now args tr
    response applications e :
  lists srv (args_host args) tr response ->
  (result ← getitem response "result"; getitem result "qDocList")
  = Ok applications ->
  stale_apps_on strptime local_epoch now applications (args_days args)
    (args_min args) (args_include_published args) = Raise e ->
  let out := main srv strptime local_epoch fsum write_stale_apps_to_csv now
               args tr in
  out.1 = Raise e /\
  sent out.2 = sent tr ++ [GetDocList_msg] /\
  printed out.2
  = printed tr ++ [PList [PStr "Searching for apps that are more than ";
                          PInt (args_days args); PStr " days old."]].
Proof.
  intros Hlists Hdocs Heval.
  destruct (get_app_list_answered _ _ _ _ Hlists) as (g & Hrun).
  assert (Hmain :
    main srv strptime local_epoch fsum write_stale_apps_to_csv now args tr
    = (Raise e,
       (tr ++ [Connect (args_host args) true; Recv (length tr) (Some g);
               Send (length tr) GetDocList_msg true;
               Recv (length tr) (Some (Some response)); Close (length tr)])
       ++ [Print (PList [PStr "Searching for apps that are more than ";
                         PInt (args_days args); PStr " days old."])])).
  { unfold main. cbv zeta. rewrite io_bind_run, Hrun, Hdocs, Heval.
    reflexivity. }
  cbv zeta. rewrite Hmain. cbn [fst snd].
  rewrite !sent_app, !printed_app. cbn [sent printed app].
  by rewrite !app_nil_r.
Qed.

Lemma main_stops_on_evaluation_error_witness :
  (main (Sample.listing [PNone]) Sample.strptime unix_epoch Sample.no_sum
     Sample.no_report Sample.t_2021 (Sample.args true) []).1
  = Raise TypeError /\
  sent (main (Sample.listing [PNone]) Sample.strptime unix_epoch Sample.no_sum
          Sample.no_report Sample.t_2021 (Sample.args true) []).2
  = sent [] ++ [GetDocList_msg].
Proof.
  destruct (main_stops_on_evaluation_error (Sample.listing [PNone])
              Sample.strptime unix_epoch Sample.no_sum Sample.no_report
              Sample.t_2021 (Sample.args true) []
              (Sample.inventory_reply [PNone]) (PList [PNone]) TypeError)
    as (Hres & Hsent & _).
  - exists (Some Sample.greeting). repeat split; vm_compute; reflexivity.
  - vm_compute. reflexivity.
  - vm_compute. reflexivity.
  - split; [exact Hres | exact Hsent].
Defined.
